(** * Visibility, reactions, moderation and cursor pagination

    A shallow embedding of the content pipeline of the post backend:

    - [src/utils/postUtils.js]          the per-viewer filter of a post list;
    - [src/models/postModel.js]         the post schema;
    - [src/controllers/postController.js]   feed, single post, reactions;
    - [src/controllers/searchController.js] post search and category listing.

    Collections of the document store are lists of documents in natural
    order.  Object ids and timestamps are integers.  A handler is a function
    from the collections and the request to a response, paired with the new
    collection when it writes.  The [catch] branch of a handler (status 500,
    SERVER_001) is modelled where the handler's own code throws: a method
    called on [undefined], a document that fails the validation of its
    schema.  Exceptions raised by the store driver are not modelled: the
    store operations used here are total functions.

    The cached [engagementScore] of a post is a floating-point number
    computed with [Math.exp] from the clock; it is not part of the model. *)

From Stdlib Require Import ZArith NArith List Bool Lia String Ascii.
From Stdlib Require Import Sorted Permutation.
Import ListNotations.

Local Open Scope Z_scope.

(** ** JavaScript strings *)

Module JS.

(** A string is its sequence of UTF-16 code units. *)
Definition jsString := list N.

(** [ofString] reads an ASCII literal as a JavaScript string. *)
Fixpoint ofString (s : string) : jsString :=
  match s with
  | EmptyString => []
  | String c s' => N_of_ascii c :: ofString s'
  end.

(** WhiteSpace and LineTerminator code points of ECMAScript, the characters
    that [String.prototype.trim] strips. *)
Definition isWhiteSpace (c : N) : bool :=
  existsb (N.eqb c)
    [9; 10; 11; 12; 13; 32; 160; 5760; 8232; 8233; 8239; 8287; 12288; 65279]%N
  || ((8192 <=? c) && (c <=? 8202))%N.

Fixpoint trimStart (s : jsString) : jsString :=
  match s with
  | [] => []
  | c :: s' => if isWhiteSpace c then trimStart s' else s
  end.

Definition trimEnd (s : jsString) : jsString := rev (trimStart (rev s)).

Definition trim (s : jsString) : jsString := trimEnd (trimStart s).

(** [toLowerCase] on the letters A to Z; every other code unit is kept.
    This is [String.prototype.toLowerCase] on a text of ASCII characters.
    Beyond ASCII the function of the language maps other letters too and
    looks at the context of a letter (the final sigma); that is not
    modelled. *)
Definition lowerUnit (c : N) : N :=
  if ((65 <=? c) && (c <=? 90))%N then (c + 32)%N else c.

Definition toLowerCase (s : jsString) : jsString := map lowerUnit s.

Fixpoint eqb (s t : jsString) : bool :=
  match s, t with
  | [], [] => true
  | c :: s', d :: t' => (c =? d)%N && eqb s' t'
  | _, _ => false
  end.

Fixpoint startsWith (s prefix : jsString) : bool :=
  match prefix, s with
  | [], _ => true
  | d :: prefix', c :: s' => (c =? d)%N && startsWith s' prefix'
  | _ :: _, [] => false
  end.

(** [s.includes(sub)]: [sub] occurs in [s] at some position. *)
Fixpoint includes (s sub : jsString) : bool :=
  startsWith s sub ||
  match s with
  | [] => false
  | _ :: s' => includes s' sub
  end.

(** Truthiness of an optional string: [undefined] and [''] are falsy. *)
Definition truthy (s : option jsString) : bool :=
  match s with
  | Some (_ :: _) => true
  | _ => false
  end.

(** [array.pop()]: the array without its last element. *)
Definition pop {A : Type} (l : list A) : list A := removelast l.

(** The last element of an array, [None] when it is empty. *)
Fixpoint lastItem {A : Type} (l : list A) : option A :=
  match l with
  | [] => None
  | [x] => Some x
  | _ :: l' => lastItem l'
  end.

End JS.

Import JS.

(** ** Schemas *)

(** The five reaction kinds: the keys of [reactions] and [reactionUsers]
    in the post schema (red heart, thumbs up, face with tears of joy, face
    with open mouth, raising hands). *)
Inductive ReactionType : Type :=
| redHeart | thumbsUp | tearsOfJoy | openMouth | raisingHands.

(** The key of each kind as the schema file spells it, in UTF-16 code
    units: U+2764 U+FE0F, U+1F44D, U+1F602, U+1F62E, U+1F64C. *)
Definition schemaKey (k : ReactionType) : jsString :=
  match k with
  | redHeart => [10084; 65039]%N
  | thumbsUp => [55357; 56397]%N
  | tearsOfJoy => [55357; 56834]%N
  | openMouth => [55357; 56878]%N
  | raisingHands => [55357; 56908]%N
  end.

Definition allReactions : list ReactionType :=
  [redHeart; thumbsUp; tearsOfJoy; openMouth; raisingHands].

(** The field that a property name selects in an object keyed by the five
    kinds: [obj[name]] is the field of kind [k] when [name] is the key of
    [k], and [undefined] for every other name. *)
Definition keyOf (name : jsString) : option ReactionType :=
  find (fun k => JS.eqb (schemaKey k) name) allReactions.

(** An object with one field per reaction kind. *)
Record PerReaction (A : Type) : Type := mkPerReaction {
  onRedHeart : A;
  onThumbsUp : A;
  onTearsOfJoy : A;
  onOpenMouth : A;
  onRaisingHands : A
}.

Arguments mkPerReaction {A}.
Arguments onRedHeart {A}.
Arguments onThumbsUp {A}.
Arguments onTearsOfJoy {A}.
Arguments onOpenMouth {A}.
Arguments onRaisingHands {A}.

(** [obj[type]] *)
Definition getField {A : Type} (type : ReactionType) (obj : PerReaction A) : A :=
  match type with
  | redHeart => onRedHeart obj
  | thumbsUp => onThumbsUp obj
  | tearsOfJoy => onTearsOfJoy obj
  | openMouth => onOpenMouth obj
  | raisingHands => onRaisingHands obj
  end.

(** [obj[type] = f(obj[type])] *)
Definition updField {A : Type} (type : ReactionType) (f : A -> A)
  (obj : PerReaction A) : PerReaction A :=
  match type with
  | redHeart =>
      mkPerReaction (f (onRedHeart obj)) (onThumbsUp obj) (onTearsOfJoy obj)
        (onOpenMouth obj) (onRaisingHands obj)
  | thumbsUp =>
      mkPerReaction (onRedHeart obj) (f (onThumbsUp obj)) (onTearsOfJoy obj)
        (onOpenMouth obj) (onRaisingHands obj)
  | tearsOfJoy =>
      mkPerReaction (onRedHeart obj) (onThumbsUp obj) (f (onTearsOfJoy obj))
        (onOpenMouth obj) (onRaisingHands obj)
  | openMouth =>
      mkPerReaction (onRedHeart obj) (onThumbsUp obj) (onTearsOfJoy obj)
        (f (onOpenMouth obj)) (onRaisingHands obj)
  | raisingHands =>
      mkPerReaction (onRedHeart obj) (onThumbsUp obj) (onTearsOfJoy obj)
        (onOpenMouth obj) (f (onRaisingHands obj))
  end.

Inductive Visibility : Type := public | moderated | deleted.

Definition visibility_eqb (a b : Visibility) : bool :=
  match a, b with
  | public, public | moderated, moderated | deleted, deleted => true
  | _, _ => false
  end.

(** [src/models/postModel.js]: the fields that the pipeline reads or
    writes. *)
Module PostModel.

Inductive EditReason : Type := moderation | userInitiated.

(** An entry of the edit history of a post. *)
Record Edit : Type := mkEdit {
  timestamp : Z;
  reason : EditReason
}.

Record Post : Type := mkPost {
  _id : Z;
  userId : Z;
  content : jsString;
  createdAt : Z;                      (* milliseconds since the epoch *)
  hashtags : list jsString;
  reactions : PerReaction Z;
  reactionUsers : PerReaction (list Z);
  commentCount : Z;
  contentWarning : option jsString;
  isModerated : bool;
  moderationReason : option jsString;
  visibility : Visibility;
  impressionCount : Z;
  shareCount : Z;
  edits : list Edit
}.

End PostModel.

(** [src/models/userModel.js], the fields the pipeline reads. *)
Module UserModel.

Record ContentFilters : Type := mkContentFilters {
  contentFiltering : bool;
  showSensitiveContent : bool
}.

Record Settings : Type := mkSettings {
  contentFilters : ContentFilters
}.

Record User : Type := mkUser {
  _id : Z;
  isAdmin : bool;
  blockedUsers : list Z;
  keywordFilters : list jsString;
  settings : Settings
}.

End UserModel.

(** [src/models/commentModel.js], the fields read by [getPost]. *)
Module CommentModel.

Record Comment : Type := mkComment {
  _id : Z;
  postId : Z;
  parentId : option Z;
  userId : Z;
  createdAt : Z;
  visibility : Visibility
}.

End CommentModel.

(** The category documents read by [getCategoryPosts]. *)
Module CategoryModel.

Record Category : Type := mkCategory {
  slug : jsString;
  isActive : bool;
  hashtags : list jsString
}.

End CategoryModel.

Import PostModel.
Definition User : Type := UserModel.User.
Definition Comment : Type := CommentModel.Comment.
Definition Category : Type := CategoryModel.Category.

(** ** [src/utils/postUtils.js] *)

Module PostUtils.

Definition containsSensitiveContent (content : jsString)
  (keywords : list jsString) : bool :=
  match keywords with
  | [] => false
  | _ =>
      let contentLower := toLowerCase content in
      existsb (fun keyword => includes contentLower (toLowerCase keyword))
        keywords
  end.

(** The callback that [filterPostsForUser] hands to [posts.filter] for an
    authenticated [user]. *)
Definition keepsPost (user : User) (post : Post) : bool :=
  let filters := UserModel.contentFilters (UserModel.settings user) in
  (* Filter out posts from blocked users *)
  if existsb (fun id => id =? userId post) (UserModel.blockedUsers user)
  then false
  (* Filter out posts with sensitive content if user has that setting *)
  else if UserModel.contentFiltering filters
          && (truthy (contentWarning post)
              && negb (UserModel.showSensitiveContent filters))
  then false
  else if UserModel.contentFiltering filters
          && ((0 <? Z.of_nat (List.length (UserModel.keywordFilters user)))
              && containsSensitiveContent (content post)
                   (UserModel.keywordFilters user))
  then false
  (* Filter out moderated or deleted posts *)
  else if negb (visibility_eqb (visibility post) public)
  then false
  else true.

(** [isVisible post viewer]: does the filter keep [post] for [viewer]? *)
Definition isVisible (post : Post) (viewer : option User) : bool :=
  match viewer with
  | None => visibility_eqb (visibility post) public
  | Some user => keepsPost user post
  end.

Definition filterPostsForUser (posts : list Post) (user : option User)
  : list Post :=
  match user with
  | None => filter (fun post => visibility_eqb (visibility post) public) posts
  | Some u => filter (keepsPost u) posts
  end.

End PostUtils.

Import PostUtils.

(** ** The document store

    The part of the query language the handlers use: filter documents,
    [sort] by one descending key, [limit], and the update operators [$inc],
    [$push] and [$pull]. *)

Module Mongo.

(** A filter over posts.  Every listing filter carries
    [visibility: 'public']; the other conditions are optional. *)
Record PostFilter : Type := mkPostFilter {
  id_lt : option Z;                       (* _id: { $lt: cursor } *)
  userId_nin : option (list Z);           (* userId: { $nin: ids } *)
  hashtags_in : option (list jsString)    (* hashtags: { $in: tags } *)
}.

Definition matches (q : PostFilter) (p : Post) : bool :=
  visibility_eqb (visibility p) public
  && match id_lt q with
     | Some c => _id p <? c
     | None => true
     end
  && match userId_nin q with
     | Some ids => negb (existsb (Z.eqb (userId p)) ids)
     | None => true
     end
  && match hashtags_in q with
     | Some tags => existsb (fun h => existsb (JS.eqb h) tags) (hashtags p)
     | None => true
     end.

(** [sort({ key: -1 })]: descending in [key]; documents with equal keys keep
    their natural order. *)
Fixpoint insertDesc {A : Type} (key : A -> Z) (x : A) (l : list A) : list A :=
  match l with
  | [] => [x]
  | y :: l' => if key y <=? key x then x :: l else y :: insertDesc key x l'
  end.

Definition sortDesc {A : Type} (key : A -> Z) (l : list A) : list A :=
  fold_right (insertDesc key) [] l.

(** [limit(n)]: at most [|n|] documents, and no bound at all for [n = 0]. *)
Definition limit {A : Type} (n : Z) (l : list A) : list A :=
  if n =? 0 then l else firstn (Z.to_nat (Z.abs n)) l.

(** [Post.find(q).sort({ createdAt: -1 }).limit(n)] *)
Definition findPosts (q : PostFilter) (n : Z) (Posts : list Post) : list Post :=
  limit n (sortDesc createdAt (filter (matches q) Posts)).

Definition findById (id : Z) (Posts : list Post) : option Post :=
  find (fun p => _id p =? id) Posts.

(** [Post.findByIdAndUpdate(id, update)]: the first document with this id is
    replaced by its update. *)
Fixpoint findByIdAndUpdate (id : Z) (update : Post -> Post)
  (Posts : list Post) : list Post :=
  match Posts with
  | [] => []
  | p :: rest =>
      if _id p =? id then update p :: rest
      else p :: findByIdAndUpdate id update rest
  end.

Definition setReactions (r : PerReaction Z) (u : PerReaction (list Z))
  (p : Post) : Post :=
  mkPost (_id p) (userId p) (content p) (createdAt p) (hashtags p) r u
    (commentCount p) (contentWarning p) (isModerated p) (moderationReason p)
    (visibility p) (impressionCount p) (shareCount p) (edits p).

(** [{ $inc: { reactions.type: 1 }, $push: { reactionUsers.type: uid } }] *)
Definition incAndPush (type : ReactionType) (uid : Z) (p : Post) : Post :=
  setReactions
    (updField type (fun n => n + 1) (reactions p))
    (updField type (fun ids => ids ++ [uid]) (reactionUsers p))
    p.

(** [{ $inc: { reactions.type: -1 }, $pull: { reactionUsers.type: uid } }];
    [$pull] removes every element equal to [uid]. *)
Definition decAndPull (type : ReactionType) (uid : Z) (p : Post) : Post :=
  setReactions
    (updField type (fun n => n + -1) (reactions p))
    (updField type (filter (fun id => negb (id =? uid))) (reactionUsers p))
    p.

(** [{ $inc: { impressionCount: 1 } }] *)
Definition incImpressionCount (p : Post) : Post :=
  mkPost (_id p) (userId p) (content p) (createdAt p) (hashtags p)
    (reactions p) (reactionUsers p) (commentCount p) (contentWarning p)
    (isModerated p) (moderationReason p) (visibility p) (impressionCount p + 1)
    (shareCount p) (edits p).

End Mongo.

(** ** Responses *)

Record Pagination : Type := mkPagination {
  nextCursor : option Z;
  hasMore : bool;
  total : option Z
}.

(** The response envelope: [res.status(status).json({ success, data, error:
    { code }, meta: { pagination } })]. *)
Inductive Response (A : Type) : Type :=
| Success (status : Z) (data : A) (pagination : option Pagination)
| Failure (status : Z) (code : string).

Arguments Success {A}.
Arguments Failure {A}.

Definition status {A : Type} (r : Response A) : Z :=
  match r with
  | Success s _ _ => s
  | Failure s _ => s
  end.

Definition success {A : Type} (r : Response A) : bool :=
  match r with
  | Success _ _ _ => true
  | Failure _ _ => false
  end.

Definition data {A : Type} (r : Response A) : option A :=
  match r with
  | Success _ d _ => Some d
  | Failure _ _ => None
  end.

Definition pagination {A : Type} (r : Response A) : option Pagination :=
  match r with
  | Success _ _ m => m
  | Failure _ _ => None
  end.

(** A client error is a failure with a 4xx status. *)
Definition clientError {A : Type} (r : Response A) : bool :=
  negb (success r) && (400 <=? status r) && (status r <? 500).

(** ** [src/controllers/postController.js]

    A request carries [user] ([req.user], absent for an anonymous request),
    [cursor] and [limit] ([req.query]; [None] when the parameter is absent,
    otherwise the integer that [parseInt] reads). *)

Module PostController.

(** [const { limit = 15 } = req.query] *)
Definition limitOrDefault (limit : option Z) : Z :=
  match limit with
  | Some n => n
  | None => 15
  end.

(** [Math.min(parseInt(limit), 50)] *)
Definition parsedLimit (limit : option Z) : Z :=
  Z.min (limitOrDefault limit) 50.

(** The query of the feed: public posts, older than the cursor when there is
    one, not written by a user the viewer blocks. *)
Definition feedQuery (user : option User) (cursor : option Z)
  : Mongo.PostFilter :=
  Mongo.mkPostFilter cursor
    match user with
    | Some u =>
        if 0 <? Z.of_nat (List.length (UserModel.blockedUsers u))
        then Some (UserModel.blockedUsers u)
        else None
    | None => None
    end
    None.

Definition getPersonalizedFeed (Posts : list Post) (user : option User)
  (cursor : option Z) (limit : option Z) : Response (list Post) :=
  let parsedLimit := parsedLimit limit in
  let query := feedQuery user cursor in
  (* Get one extra to determine if there are more *)
  let posts := Mongo.findPosts query (parsedLimit + 1) Posts in
  let hasMore := parsedLimit <? Z.of_nat (List.length posts) in
  (* Remove the extra post if there are more *)
  let posts := if hasMore then pop posts else posts in
  (* Apply user-specific filtering *)
  let filteredPosts :=
    match user with
    | Some u => filterPostsForUser posts (Some u)
    | None => posts
    end in
  (* Get the next cursor *)
  let nextCursor := option_map _id (lastItem filteredPosts) in
  Success 200 filteredPosts (Some (mkPagination nextCursor hasMore None)).

(** [getPost] answers with the post as it was read, before the impression
    is counted, and with its first ten public top-level comments. *)
Definition getPost (Posts : list Post) (Comments : list Comment)
  (user : option User) (id : Z)
  : Response (Post * list Comment) * list Post :=
  match Mongo.findById id Posts with
  | None => (Failure 404 "POST_001", Posts)
  | Some post =>
      (* Check if post is visible to user *)
      if negb (visibility_eqb (visibility post) public)
         && match user with
            | None => true
            | Some u =>
                negb (userId post =? UserModel._id u)
                && negb (UserModel.isAdmin u)
            end
      then (Failure 403 "AUTH_003", Posts)
      else
        let Posts' := Mongo.findByIdAndUpdate id Mongo.incImpressionCount Posts in
        let comments :=
          Mongo.limit 10
            (Mongo.sortDesc CommentModel.createdAt
               (filter
                  (fun c =>
                     (CommentModel.postId c =? id)
                     && match CommentModel.parentId c with
                        | None => true
                        | Some _ => false
                        end
                     && visibility_eqb (CommentModel.visibility c) public)
                  Comments)) in
        let filteredComments :=
          match user with
          | Some u =>
              filter
                (fun comment =>
                   negb (existsb (fun id => id =? CommentModel.userId comment)
                           (UserModel.blockedUsers u)))
                comments
          | None => comments
          end in
        (Success 200 (post, filteredComments) None, Posts')
  end.

(** [validReactions], the list that [addReaction] and [removeReaction]
    declare, as the controller file spells its five literals: U+00E2 U+00A4
    U+00EF U+00B8, then U+00F0 U+0178 followed by U+2018, by U+02DC U+201A,
    by U+02DC U+00AE and by U+2122 U+0152. *)
Definition validReactions : list jsString :=
  [[226; 164; 239; 184]; [240; 376; 8216]; [240; 376; 732; 8218];
   [240; 376; 732; 174]; [240; 376; 8482; 338]]%N.

(** [type] is [req.body.type]; [None] when the body holds no string there,
    a value that [validReactions.includes] does not find.

    [post.reactionUsers[type]] is [undefined] when [type] is not a key of
    the schema; calling [some] on it throws, and the [catch] branch answers
    500 SERVER_001.

    After the update of the post the handler also increments the activity
    metrics of the two users, recomputes the cached engagement score and
    emits a notification.  These write the users and the notifications
    collections and the [engagementScore] field, which are outside the
    model; they leave [reactions] and [reactionUsers] as they are. *)
Definition addReaction (Posts : list Post) (user : User) (id : Z)
  (type : option jsString) : Response (PerReaction Z) * list Post :=
  match type with
  | None => (Failure 400 "POST_004", Posts)
  | Some type =>
      (* Validate reaction type *)
      if negb (existsb (JS.eqb type) validReactions)
      then (Failure 400 "POST_004", Posts)
      else
        match Mongo.findById id Posts with
        | None => (Failure 404 "POST_001", Posts)
        | Some post =>
            (* Check if post is public *)
            if negb (visibility_eqb (visibility post) public)
            then (Failure 403 "POST_005", Posts)
            else
              match keyOf type with
              | None => (Failure 500 "SERVER_001", Posts)
              | Some kind =>
                  (* Check if user already reacted with this type *)
                  let hasReacted :=
                    existsb (fun userId => userId =? UserModel._id user)
                      (getField kind (reactionUsers post)) in
                  if hasReacted then (Failure 400 "POST_006", Posts)
                  else
                    let Posts' :=
                      Mongo.findByIdAndUpdate id
                        (Mongo.incAndPush kind (UserModel._id user)) Posts in
                    match Mongo.findById id Posts' with
                    | Some updatedPost =>
                        (Success 200 (reactions updatedPost) None, Posts')
                    | None => (Failure 500 "SERVER_001", Posts')
                    end
              end
        end
  end.

(** [type] is [req.params.type], a segment of the URL. *)
Definition removeReaction (Posts : list Post) (user : User) (id : Z)
  (type : jsString) : Response (PerReaction Z) * list Post :=
  (* Validate reaction type *)
  if negb (existsb (JS.eqb type) validReactions)
  then (Failure 400 "POST_004", Posts)
  else
    match Mongo.findById id Posts with
    | None => (Failure 404 "POST_001", Posts)
    | Some post =>
        match keyOf type with
        | Some kind =>
            (* Check if user has reacted with this type *)
            let hasReacted :=
              existsb (fun userId => userId =? UserModel._id user)
                (getField kind (reactionUsers post)) in
            if negb hasReacted then (Failure 400 "POST_007", Posts)
            else
              let Posts' :=
                Mongo.findByIdAndUpdate id
                  (Mongo.decAndPull kind (UserModel._id user)) Posts in
              match Mongo.findById id Posts' with
              | Some updatedPost =>
                  (Success 200 (reactions updatedPost) None, Posts')
              | None => (Failure 500 "SERVER_001", Posts')
              end
        | None => (Failure 500 "SERVER_001", Posts)
        end
    end.

End PostController.

(** ** [src/controllers/searchController.js] *)

Module SearchController.

Record SearchOptions : Type := mkSearchOptions {
  from : Z;
  size : Z;
  sortBy : jsString;
  language : option jsString
}.

Record SearchResults : Type := mkSearchResults {
  results : list Post;
  totalCount : Z;
  moreResults : bool
}.

(** [searchService.searchPosts] runs a text query on the index of the store.
    It is an argument of the handler: [None] is a rejected promise. *)
Definition SearchService : Type :=
  jsString -> SearchOptions -> option User -> option SearchResults.

Definition searchPosts (searchService_searchPosts : SearchService)
  (user : option User) (q : option jsString) (cursor : option Z)
  (limit : option Z) (sortBy : option jsString) (language : option jsString)
  : Response (list Post) :=
  match q with
  | None => Failure 400 "SEARCH_001"                       (* !q *)
  | Some term =>
      if negb (truthy q) || JS.eqb (trim term) []
      then Failure 400 "SEARCH_001"
      else
        (* Convert cursor to 'from' parameter for pagination *)
        let from :=
          match cursor with
          | Some c => c
          | None => 0
          end in
        match
          searchService_searchPosts (trim term)
            (mkSearchOptions from (PostController.limitOrDefault limit)
               match sortBy with
               | Some s => s
               | None => ofString "relevance"
               end
               language)
            user
        with
        | None => Failure 500 "SERVER_001"
        | Some searchResults =>
            let nextCursor :=
              from + Z.of_nat (List.length (results searchResults)) in
            Success 200 (results searchResults)
              (Some
                 (mkPagination
                    (if moreResults searchResults then Some nextCursor
                     else None)
                    (moreResults searchResults)
                    (Some (totalCount searchResults))))
        end
  end.

(** The query of the category listing: public posts, older than the cursor
    when there is one, carrying a hashtag of the category when it has any. *)
Definition categoryQuery (category : Category) (cursor : option Z)
  : Mongo.PostFilter :=
  Mongo.mkPostFilter cursor None
    (if 0 <? Z.of_nat (List.length (CategoryModel.hashtags category))
     then Some (CategoryModel.hashtags category)
     else None).

Definition getCategoryPosts (Categories : list Category) (Posts : list Post)
  (user : option User) (id : jsString) (cursor : option Z)
  (limit : option Z) : Response (list Post) :=
  let limit := PostController.limitOrDefault limit in
  match
    find (fun c => JS.eqb (CategoryModel.slug c) id && CategoryModel.isActive c)
      Categories
  with
  | None => Failure 404 "SEARCH_003"
  | Some category =>
      let query := categoryQuery category cursor in
      let posts := Mongo.findPosts query (limit + 1) Posts in
      let hasMore := limit <? Z.of_nat (List.length posts) in
      let posts := if hasMore then pop posts else posts in
      let filteredPosts :=
        match user with
        | Some u => filterPostsForUser posts (Some u)
        | None => posts
        end in
      let nextCursor := option_map _id (lastItem filteredPosts) in
      Success 200 filteredPosts (Some (mkPagination nextCursor hasMore None))
  end.

End SearchController.

Import PostController SearchController.

(** ** More of the document store *)

Module MongoMore.

(** [sort({ key: 1 })]: ascending in [key]; documents with equal keys keep
    their natural order. *)
Fixpoint insertAsc {A : Type} (key : A -> Z) (x : A) (l : list A) : list A :=
  match l with
  | [] => [x]
  | y :: l' => if key x <=? key y then x :: l else y :: insertAsc key x l'
  end.

Definition sortAsc {A : Type} (key : A -> Z) (l : list A) : list A :=
  fold_right (insertAsc key) [] l.

(** [Post.find({ userId: author, ...q }).sort({ createdAt: -1 }).limit(n)] *)
Definition findPostsOf (author : Z) (q : Mongo.PostFilter) (n : Z)
  (Posts : list Post) : list Post :=
  Mongo.limit n
    (Mongo.sortDesc createdAt
       (filter (fun p => (userId p =? author) && Mongo.matches q p) Posts)).

(** [post.visibility = v; post.save()] *)
Definition withVisibility (v : Visibility) (p : Post) : Post :=
  mkPost (_id p) (userId p) (content p) (createdAt p) (hashtags p)
    (reactions p) (reactionUsers p) (commentCount p) (contentWarning p)
    (isModerated p) (moderationReason p) v (impressionCount p) (shareCount p)
    (edits p).

(** The post with the five fields that a moderation action assigns:
    [contentWarning], [isModerated], [moderationReason], [visibility] and
    [edits]. *)
Definition withModeration (w : option jsString) (m : bool)
  (r : option jsString) (v : Visibility) (e : list Edit) (p : Post) : Post :=
  mkPost (_id p) (userId p) (content p) (createdAt p) (hashtags p)
    (reactions p) (reactionUsers p) (commentCount p) w m r v
    (impressionCount p) (shareCount p) e.

(** A filter over comments: [{ postId, parentId, visibility: 'public',
    _id: { $lt: cursor } }], where [postId] is optional and [parentId] is
    [null] or the id of a comment. *)
Definition matchesComment (ofPost : option Z) (parent : option Z)
  (cursor : option Z) (c : Comment) : bool :=
  match ofPost with
  | Some p => CommentModel.postId c =? p
  | None => true
  end
  && match parent, CommentModel.parentId c with
     | None, None => true
     | Some a, Some b => b =? a
     | _, _ => false
     end
  && visibility_eqb (CommentModel.visibility c) public
  && match cursor with
     | Some k => CommentModel._id c <? k
     | None => true
     end.

End MongoMore.

(** ** Hashtags: [extractHashtags] of [src/utils/postUtils.js]

    The same code runs in the pre-save hook of the post schema. *)

Module Hashtags.

(** [\w]: a digit, a letter A to Z or a to z, or the underscore. *)
Definition isWordChar (c : N) : bool :=
  (((48 <=? c) && (c <=? 57)) || ((65 <=? c) && (c <=? 90)) || (c =? 95)
   || ((97 <=? c) && (c <=? 122)))%N.

(** The longest run of word characters at the start of a string. *)
Fixpoint wordPrefix (s : jsString) : jsString :=
  match s with
  | [] => []
  | c :: s' => if isWordChar c then c :: wordPrefix s' else []
  end.

(** The captures of the successive matches of [/#(\w+)/g].  A match starts at
    a [#] that a word character follows, and captures the whole run.  The
    search resumes at the end of the run; as a run holds no [#], this finds
    the same matches as resuming right after the [#]. *)
Fixpoint captures (content : jsString) : list jsString :=
  match content with
  | [] => []
  | c :: rest =>
      if (c =? 35)%N then
        match wordPrefix rest with
        | [] => captures rest
        | w => w :: captures rest
        end
      else captures rest
  end.

(** [[...new Set(array)]]: the first occurrence of every element, in
    order. *)
Fixpoint unique (l : list jsString) : list jsString :=
  match l with
  | [] => []
  | x :: l' => x :: filter (fun y => negb (JS.eqb y x)) (unique l')
  end.

Definition extractHashtags (content : jsString) : list jsString :=
  unique (map toLowerCase (captures content)).

End Hashtags.

(** ** [src/services/moderationService.js] *)

Module AccountModel.

Record ContentSettings : Type := mkContentSettings {
  autoModeration : bool
}.

(** A user document together with its [contentSettings], which the record
    [User] leaves out. *)
Record Account : Type := mkAccount {
  document : User;
  contentSettings : ContentSettings
}.

End AccountModel.

Module ModerationService.

Inductive Severity : Type := low | medium | high.

Definition prohibitedKeywords : list jsString :=
  [ofString "offensive"; ofString "inappropriate"; ofString "obscene";
   ofString "illegal"].

(** A detection is recorded by its keyword; the severity of every detection
    is ['medium']. *)
Record CheckResult : Type := mkCheckResult {
  detected : bool;
  detections : list jsString;
  severity : Severity
}.

Definition checkProhibitedContent (content : jsString) : CheckResult :=
  let detections :=
    filter (fun keyword => includes (toLowerCase content) keyword)
      prohibitedKeywords in
  mkCheckResult
    (0 <? Z.of_nat (List.length detections))
    detections
    (if 0 <? Z.of_nat (List.length detections) then medium else low).

(** The result of [autoModerateContent]; the early return for a user who
    disabled moderation carries [shouldModerate] alone. *)
Record ModerationResult : Type := mkModerationResult {
  shouldModerate : bool;
  moderationReason : option string;
  resultSeverity : option Severity;
  resultDetections : option (list jsString)
}.

Definition autoModerateContent (content : jsString)
  (user : option AccountModel.Account) : ModerationResult :=
  if match user with
     | Some u =>
         negb (AccountModel.autoModeration (AccountModel.contentSettings u))
     | None => false
     end
  then mkModerationResult false None None None
  else
    let checkResult := checkProhibitedContent content in
    let decision :=
      if detected checkResult then
        match severity checkResult with
        | high => (true, Some "Content contains prohibited material"%string)
        | medium => (true, Some "Content may be inappropriate"%string)
        | low => (false, None)
        end
      else (false, None) in
    mkModerationResult (fst decision) (snd decision)
      (Some (severity checkResult)) (Some (detections checkResult)).

Inductive ModerationAction : Type := flag | remove | restore.

(** The effect of [moderatePost] on the post; [now] is the value of
    [new Date()] for the entry of the edit history.  The notification it
    sends is outside the model. *)
Definition moderatePost (post : Post) (action : ModerationAction)
  (reason : jsString) (now : Z) : Post :=
  match action with
  | flag =>
      MongoMore.withModeration (Some reason) true (Some reason)
        (visibility post) (edits post) post
  | remove =>
      MongoMore.withModeration (contentWarning post) true (Some reason)
        moderated (edits post ++ [mkEdit now moderation]) post
  | restore =>
      MongoMore.withModeration None false None public
        (edits post ++ [mkEdit now moderation]) post
  end.

End ModerationService.

(** ** [src/controllers/moderationController.js] *)

Module ModerationController.

(** [action] is [Some a] for one of ['flag'], ['remove'], ['restore'] and
    [None] for any other value; [now] is the clock that the service reads. *)
Definition moderatePost (Posts : list Post) (id : Z)
  (action : option ModerationService.ModerationAction)
  (reason : option jsString) (now : Z) : Response Post * list Post :=
  match action with
  | None => (Failure 400 "MOD_007", Posts)
  | Some action =>
      match Mongo.findById id Posts with
      | None => (Failure 404 "POST_001", Posts)
      | Some post =>
          let reason :=
            match reason with
            | Some (c :: r) => c :: r
            | _ => ofString "Violation of community guidelines"
            end in
          let moderatedPost :=
            ModerationService.moderatePost post action reason now in
          (Success 200 moderatedPost None,
           Mongo.findByIdAndUpdate id
             (fun p => ModerationService.moderatePost p action reason now)
             Posts)
      end
  end.

End ModerationController.

(** ** More of [src/controllers/postController.js] *)

Module PostControllerMore.

(** [createPost].  [newId] is the id that the store gives the new document
    and [now] the value of [Date.now()] for its [createdAt].  [Post.create]
    validates the document against the schema: a content of more than 1000
    code units is refused, which the handler reports as a server error.  The
    counter of the user's posts and the mentions are outside the model. *)
Definition createPost (Posts : list Post) (user : AccountModel.Account)
  (content contentWarning : option jsString) (newId now : Z)
  : Response Post * list Post :=
  match content with
  | None => (Failure 400 "POST_003", Posts)
  | Some text =>
      if negb (truthy content) || JS.eqb (trim text) []
      then (Failure 400 "POST_003", Posts)
      else if 1000 <? Z.of_nat (List.length text)
      then (Failure 500 "SERVER_001", Posts)
      else
        let hashtags := Hashtags.extractHashtags text in
        let moderationResult :=
          ModerationService.autoModerateContent text (Some user) in
        let isModerated :=
          AccountModel.autoModeration (AccountModel.contentSettings user)
          && ModerationService.shouldModerate moderationResult in
        let moderationReason :=
          if isModerated
          then option_map ofString
                 (ModerationService.moderationReason moderationResult)
          else None in
        let post :=
          mkPost newId (UserModel._id (AccountModel.document user)) text now
            hashtags (mkPerReaction 0 0 0 0 0) (mkPerReaction [] [] [] [] [])
            0 contentWarning isModerated moderationReason
            (if isModerated then moderated else public) 0 0 [] in
        (Success 201 post None, Posts ++ [post])
  end.

(** [deletePost]: a soft delete by the author or an admin.  The counter of
    the user's posts is outside the model. *)
Definition deletePost (Posts : list Post) (user : User) (id : Z)
  : Response unit * list Post :=
  match Mongo.findById id Posts with
  | None => (Failure 404 "POST_001", Posts)
  | Some post =>
      (* Check if user is the author or an admin *)
      if negb (userId post =? UserModel._id user)
         && negb (UserModel.isAdmin user)
      then (Failure 403 "AUTH_003", Posts)
      else
        (Success 200 tt None,
         Mongo.findByIdAndUpdate id (MongoMore.withVisibility deleted) Posts)
  end.



(** [req.params.userId] is a segment of the URL, a text.  The store casts it
    to the object id [castId]; [printed] tells whether the text is that id
    as [toString] prints it, in lower-case hexadecimal digits.  The same
    digits in upper case are cast to the same id and are not its print. *)
Record IdParam : Type := mkIdParam {
  castId : Z;
  printed : bool
}.

(** [getUserPosts]: the posts of one author, refused when the viewer and the
    author have a block between them.  [id.toString() === userId] holds for
    the id that [userId] is cast to, when [userId] is its print. *)
Definition getUserPosts (Users : list User) (Posts : list Post)
  (user : option User) (userId : IdParam) (cursor limit : option Z)
  : Response (list Post) :=
  let parsedLimit := parsedLimit limit in
  match find (fun a => UserModel._id a =? castId userId) Users with
  | None => Failure 404 "USER_002"
  | Some postAuthor =>
      (* Check if the current user has blocked or been blocked by the user *)
      if match user with
         | Some u =>
             let isBlocked :=
               existsb (fun id => printed userId && (id =? castId userId))
                 (UserModel.blockedUsers u) in
             let isBlockedBy :=
               existsb (fun id => id =? UserModel._id u)
                 (UserModel.blockedUsers postAuthor) in
             isBlocked || isBlockedBy
         | None => false
         end
      then Failure 403 "USER_010"
      else
        let query := Mongo.mkPostFilter cursor None None in
        let posts :=
          MongoMore.findPostsOf (castId userId) query (parsedLimit + 1) Posts in
        let hasMore := parsedLimit <? Z.of_nat (List.length posts) in
        let posts := if hasMore then pop posts else posts in
        let filteredPosts :=
          match user with
          | Some u => filterPostsForUser posts (Some u)
          | None => posts
          end in
        let nextCursor := option_map _id (lastItem filteredPosts) in
        Success 200 filteredPosts (Some (mkPagination nextCursor hasMore None))
  end.

End PostControllerMore.

(** ** [src/controllers/userController.js]: block list and keyword filters

    A handler returns its response and the document of the requesting user
    as [user.save()] leaves it. *)

Module UserController.

Definition withBlockedUsers (ids : list Z) (u : User) : User :=
  UserModel.mkUser (UserModel._id u) (UserModel.isAdmin u) ids
    (UserModel.keywordFilters u) (UserModel.settings u).

(** Saving modified keyword filters runs the pre-save hook of the user
    schema, which puts every keyword in lower case. *)
Definition withKeywordFilters (keywords : list jsString) (u : User) : User :=
  UserModel.mkUser (UserModel._id u) (UserModel.isAdmin u)
    (UserModel.blockedUsers u) (map toLowerCase keywords)
    (UserModel.settings u).

(** [findOne] is [User.findOne({ username })], the users collection seen
    through its username index. *)
Definition blockUser (findOne : jsString -> option User) (user : User)
  (username : jsString) : Response unit * User :=
  match findOne username with
  | None => (Failure 404 "USER_002", user)
  | Some userToBlock =>
      (* Cannot block yourself *)
      if UserModel._id userToBlock =? UserModel._id user
      then (Failure 400 "USER_003", user)
      else
        let alreadyBlocked :=
          existsb (fun id => id =? UserModel._id userToBlock)
            (UserModel.blockedUsers user) in
        if alreadyBlocked then (Failure 400 "USER_004", user)
        else
          (Success 200 tt None,
           withBlockedUsers
             (UserModel.blockedUsers user ++ [UserModel._id userToBlock]) user)
  end.

Definition unblockUser (findOne : jsString -> option User) (user : User)
  (username : jsString) : Response unit * User :=
  match findOne username with
  | None => (Failure 404 "USER_002", user)
  | Some userToUnblock =>
      let isBlocked :=
        existsb (fun id => id =? UserModel._id userToUnblock)
          (UserModel.blockedUsers user) in
      if negb isBlocked then (Failure 400 "USER_005", user)
      else
        (Success 200 tt None,
         withBlockedUsers
           (filter (fun id => negb (id =? UserModel._id userToUnblock))
              (UserModel.blockedUsers user))
           user)
  end.

Definition addKeywordFilter (user : User) (keyword : option jsString)
  : Response (list jsString) * User :=
  match keyword with
  | None => (Failure 400 "USER_006", user)
  | Some text =>
      if negb (truthy keyword) || JS.eqb (trim text) []
      then (Failure 400 "USER_006", user)
      else
        (* Normalize keyword *)
        let normalizedKeyword := toLowerCase (trim text) in
        let keywordExists :=
          existsb (JS.eqb normalizedKeyword) (UserModel.keywordFilters user) in
        if keywordExists then (Failure 400 "USER_007", user)
        else
          let saved :=
            withKeywordFilters
              (UserModel.keywordFilters user ++ [normalizedKeyword]) user in
          (Success 200 (UserModel.keywordFilters saved) None, saved)
  end.


End UserController.

(** ** [src/controller/commentController.js]: comment and reply listings *)

Module CommentController.

(** The filter that both listings run on the fetched comments. *)
Definition withoutBlocked (user : option User) (comments : list Comment)
  : list Comment :=
  match user with
  | Some u =>
      if 0 <? Z.of_nat (List.length (UserModel.blockedUsers u))
      then
        filter
          (fun comment =>
             negb (existsb (fun id => id =? CommentModel.userId comment)
                     (UserModel.blockedUsers u)))
          comments
      else comments
  | None => comments
  end.

Definition getComments (Posts : list Post) (Comments : list Comment)
  (user : option User) (postId : Z) (cursor limit : option Z)
  : Response (list Comment) :=
  let parsedLimit := parsedLimit limit in
  match Mongo.findById postId Posts with
  | None => Failure 404 "POST_001"
  | Some _ =>
      let comments :=
        Mongo.limit (parsedLimit + 1)
          (Mongo.sortDesc CommentModel.createdAt
             (filter (MongoMore.matchesComment (Some postId) None cursor)
                Comments)) in
      let hasMore := parsedLimit <? Z.of_nat (List.length comments) in
      let comments := if hasMore then pop comments else comments in
      let filteredComments := withoutBlocked user comments in
      let nextCursor :=
        option_map CommentModel._id (lastItem filteredComments) in
      Success 200 filteredComments
        (Some (mkPagination nextCursor hasMore None))
  end.

(** [getReplies] sorts oldest first and still fetches below the cursor. *)
Definition getReplies (Comments : list Comment) (user : option User)
  (commentId : Z) (cursor limit : option Z) : Response (list Comment) :=
  let parsedLimit := parsedLimit limit in
  match find (fun c => CommentModel._id c =? commentId) Comments with
  | None => Failure 404 "COMMENT_002"
  | Some _ =>
      let replies :=
        Mongo.limit (parsedLimit + 1)
          (MongoMore.sortAsc CommentModel.createdAt
             (filter (MongoMore.matchesComment None (Some commentId) cursor)
                Comments)) in
      let hasMore := parsedLimit <? Z.of_nat (List.length replies) in
      let replies := if hasMore then pop replies else replies in
      let filteredReplies := withoutBlocked user replies in
      let nextCursor :=
        option_map CommentModel._id (lastItem filteredReplies) in
      Success 200 filteredReplies
        (Some (mkPagination nextCursor hasMore None))
  end.

End CommentController.

Import PostControllerMore UserController CommentController.

(** ** Notions used by the statements *)

(** [Subsequence l l']: [l] is [l'] with some elements left out, the others
    in the same order. *)
Inductive Subsequence {A : Type} : list A -> list A -> Prop :=
| subseq_nil : Subsequence [] []
| subseq_keep : forall x l l', Subsequence l l' -> Subsequence (x :: l) (x :: l')
| subseq_drop : forall x l l', Subsequence l l' -> Subsequence l (x :: l').

(** The posts of a listing response. *)
Definition returned (r : Response (list Post)) : list Post :=
  match r with
  | Success _ posts _ => posts
  | Failure _ _ => []
  end.

Definition nextCursorOf {A : Type} (r : Response A) : option Z :=
  match pagination r with
  | Some m => nextCursor m
  | None => None
  end.

Definition hasMoreOf {A : Type} (r : Response A) : bool :=
  match pagination r with
  | Some m => hasMore m
  | None => false
  end.

(** The last step of a listing handler: the viewer's filter when there is a
    viewer. *)
Definition forViewer (user : option User) (posts : list Post) : list Post :=
  match user with
  | Some u => filterPostsForUser posts (Some u)
  | None => posts
  end.

(** The steps that a cursor listing runs on the posts it fetched with page
    size [n]: drop the overflow post, then filter for the viewer. *)
Definition listingPage (n : Z) (user : option User) (fetched : list Post)
  : list Post :=
  forViewer user
    (if n <? Z.of_nat (List.length fetched) then pop fetched else fetched).

(** Ids and creation times order the posts of a collection the same way. *)
Definition idsFollowCreation (Posts : list Post) : Prop :=
  forall a b, In a Posts -> In b Posts ->
    (_id a < _id b <-> createdAt a < createdAt b).

(** A viewer who is neither the author of [post] nor an admin; no viewer at
    all is such a viewer. *)
Definition outsider (post : Post) (viewer : option User) : Prop :=
  match viewer with
  | None => True
  | Some u => UserModel._id u <> userId post /\ UserModel.isAdmin u = false
  end.

(** The reaction invariant of a post: every reactor list is a set, and every
    counter is the size of its list. *)
Definition reactionsConsistent (p : Post) : Prop :=
  forall k : ReactionType,
    NoDup (getField k (reactionUsers p))
    /\ getField k (reactions p)
       = Z.of_nat (List.length (getField k (reactionUsers p))).

(** A query term is blank when it is absent, empty or made of white space
    only. *)
Definition blankTerm (q : option jsString) : Prop :=
  match q with
  | None => True
  | Some term => forallb isWhiteSpace term = true
  end.

(** ** Sample documents *)

Definition noReactions : PerReaction Z := mkPerReaction 0 0 0 0 0.
Definition noReactors : PerReaction (list Z) := mkPerReaction [] [] [] [] [].

(** A post as [Post.create] stores it: counters at their defaults. *)
Definition newPost (id author created : Z) (v : Visibility) : Post :=
  mkPost id author (ofString "hello") created [] noReactions noReactors 0 None
    false None v 0 0 [].

(** Public posts of Ann with ids and creation times [first], ...,
    [first + count - 1]. *)
Definition postsFrom (first count : nat) : list Post :=
  map (fun i => newPost (Z.of_nat i) 1 (Z.of_nat i) public) (seq first count).

Definition defaultSettings : UserModel.Settings :=
  UserModel.mkSettings (UserModel.mkContentFilters true false).

(** Ann (id 1) has blocked Bob (id 2); Bob has blocked nobody; Dan filters
    the keyword "spoiler". *)
Definition ann : User := UserModel.mkUser 1 false [2] [] defaultSettings.
Definition bob : User := UserModel.mkUser 2 false [] [] defaultSettings.
Definition dan : User :=
  UserModel.mkUser 3 false [] [ofString "spoiler"] defaultSettings.

Definition annsPost : Post := newPost 10 1 1000 public.
Definition removedPost : Post := newPost 11 1 2000 moderated.

(** A public post of Ann whose red-heart list holds Bob, and a post on which
    the id 2 was pushed twice. *)
Definition reactedPost : Post :=
  mkPost 12 1 (ofString "hello") 3000 [] (mkPerReaction 1 0 0 0 0)
    (mkPerReaction [2] [] [] [] []) 0 None false None public 0 0 [].

Definition twicePushedPost : Post :=
  mkPost 15 1 (ofString "hello") 6000 [] (mkPerReaction 2 0 0 0 0)
    (mkPerReaction [2; 2] [] [] [] []) 0 None false None public 0 0 [].

Definition spoilerPost : Post :=
  mkPost 21 1 (ofString "big SPOILER here") 5000 [] noReactions noReactors 0
    None false None public 0 0 [].

Definition plainPost : Post := newPost 20 1 4000 public.

(** Three posts whose ids run against their creation times. *)
Definition lateSmallId : Post := newPost 1 1 300 public.
Definition middlePost : Post := newPost 2 1 200 public.
Definition earlyLargeId : Post := newPost 3 1 100 public.

Definition generalCategory : Category :=
  CategoryModel.mkCategory (ofString "general") true [].

(** A search service over an empty index. *)
Definition emptyIndex : SearchService :=
  fun _ _ _ => Some (mkSearchResults [] 0 false).

(** ** Notions and sample documents for the further properties *)

(** A word character that a lower-case hashtag may hold. *)
Definition isLowerWordChar (c : N) : bool :=
  (((48 <=? c) && (c <=? 57)) || (c =? 95) || ((97 <=? c) && (c <=? 122)))%N.

(** A text of ASCII characters only. *)
Definition isAscii (s : jsString) : Prop :=
  forallb (fun c => (c <? 128)%N) s = true.

(** The content holds [keyword] somewhere, in any letter case. *)
Definition mentions (content keyword : jsString) : Prop :=
  exists before occurrence after,
    content = before ++ occurrence ++ after
    /\ toLowerCase occurrence = toLowerCase keyword.

(** A block list is in order when it holds no id twice and not the id of its
    owner. *)
Definition blockListInOrder (u : User) : Prop :=
  NoDup (UserModel.blockedUsers u)
  /\ ~ In (UserModel._id u) (UserModel.blockedUsers u).


(** The comments of a listing response. *)
Definition returnedComments (r : Response (list Comment)) : list Comment :=
  match r with
  | Success _ comments _ => comments
  | Failure _ _ => []
  end.

(** Ids and creation times order the comments the same way. *)
Definition commentIdsFollowCreation (Comments : list Comment) : Prop :=
  forall a b, In a Comments -> In b Comments ->
    (CommentModel._id a < CommentModel._id b
     <-> CommentModel.createdAt a < CommentModel.createdAt b).

Definition moderatedAccount (u : User) : AccountModel.Account :=
  AccountModel.mkAccount u (AccountModel.mkContentSettings true).

(** The users collection of Ann, Bob and Dan, by name and by id. *)
Definition usersByName (username : jsString) : option User :=
  if JS.eqb username (ofString "ann") then Some ann
  else if JS.eqb username (ofString "bob") then Some bob
  else if JS.eqb username (ofString "dan") then Some dan
  else None.

Definition threeUsers : list User := [ann; bob; dan].

(** A comment of Bob on Ann's post and three replies to it. *)
Definition bobsComment : Comment :=
  CommentModel.mkComment 100 10 None 2 1000 public.

Definition replyTo (id created : Z) : Comment :=
  CommentModel.mkComment id 10 (Some 100) 3 created public.

Definition thread : list Comment :=
  [bobsComment; replyTo 101 1100; replyTo 102 1200; replyTo 103 1300].

(** ** The visibility filter *)

Section VisibilityFilter.

Lemma filter_Subsequence {A : Type} (f : A -> bool) (l : list A) :
  Subsequence (filter f l) l.
Proof.
  induction l as [| x l IH]; simpl.
  - constructor.
  - destruct (f x); constructor; exact IH.
Qed.

Lemma filter_idempotent {A : Type} (f : A -> bool) (l : list A) :
  filter f (filter f l) = filter f l.
Proof.
  induction l as [| x l IH]; simpl; trivial.
  destruct (f x) eqn:E; simpl; rewrite ?E, IH; reflexivity.
Qed.

Lemma filterPostsForUser_filter (posts : list Post) (viewer : option User) :
  filterPostsForUser posts viewer
  = filter (fun post => isVisible post viewer) posts.
Proof. destruct viewer; reflexivity. Qed.

Lemma visibility_eqb_eq (a b : Visibility) :
  visibility_eqb a b = true <-> a = b.
Proof. destruct a, b; simpl; split; congruence. Qed.

(** A post the filter keeps is public, whoever the viewer is. *)
Lemma isVisible_public (post : Post) (viewer : option User) :
  isVisible post viewer = true -> visibility post = public.
Proof.
  destruct viewer as [u|]; simpl.
  - unfold keepsPost.
    destruct (existsb _ _); [discriminate|].
    destruct (_ && (truthy _ && _)); [discriminate|].
    destruct (_ && (_ && containsSensitiveContent _ _)); [discriminate|].
    destruct (visibility_eqb (visibility post) public) eqn:E; [|discriminate].
    intros _. now apply visibility_eqb_eq.
  - apply visibility_eqb_eq.
Qed.

(** The direction of the block rule that the filter implements: a post whose
    author the viewer has blocked is dropped. *)
Lemma blocked_author_hidden (post : Post) (u : User) :
  In (userId post) (UserModel.blockedUsers u) ->
  isVisible post (Some u) = false.
Proof.
  intros Hin. simpl. unfold keepsPost.
  replace (existsb (fun id => id =? userId post) (UserModel.blockedUsers u))
    with true; [reflexivity|].
  symmetry. apply existsb_exists. exists (userId post).
  split; [exact Hin | apply Z.eqb_refl].
Qed.

(** C10.  [filterPostsForUser] returns a subsequence of its input: the kept
    posts are posts of the input, unchanged and in their input order.  It is
    idempotent: filtering a filtered list for the same viewer changes
    nothing.  Both hold for every viewer, the absent one included. *)
Theorem filterPostsForUser_subsequence_idempotent :
  forall (posts : list Post) (viewer : option User),
    Subsequence (filterPostsForUser posts viewer) posts
    /\ filterPostsForUser (filterPostsForUser posts viewer) viewer
       = filterPostsForUser posts viewer.
Proof.
  intros posts viewer. rewrite !filterPostsForUser_filter. split.
  - apply filter_Subsequence.
  - apply filter_idempotent.
Qed.

(** C6.  A post that is not public is dropped by the filter for every viewer
    who is neither its author nor an admin, the anonymous viewer included;
    and when such a viewer asks for the post itself, [getPost] answers 403
    with code AUTH_003, returns no post and leaves the collection as it
    is. *)
Theorem non_public_hidden_from_outsiders :
  forall (post : Post) (viewer : option User),
    visibility post <> public ->
    outsider post viewer ->
    isVisible post viewer = false
    /\ (forall posts, ~ In post (filterPostsForUser posts viewer))
    /\ (forall Posts Comments id,
          Mongo.findById id Posts = Some post ->
          getPost Posts Comments viewer id = (Failure 403 "AUTH_003", Posts)
          /\ clientError (fst (getPost Posts Comments viewer id)) = true
          /\ data (fst (getPost Posts Comments viewer id)) = None).
Proof.
  intros post viewer Hvis Hout.
  assert (Hhid : isVisible post viewer = false).
  { destruct (isVisible post viewer) eqn:E; trivial.
    apply isVisible_public in E. contradiction. }
  assert (Hneq : visibility_eqb (visibility post) public = false).
  { destruct (visibility_eqb (visibility post) public) eqn:E; trivial.
    apply visibility_eqb_eq in E. contradiction. }
  split; [exact Hhid|]. split.
  - intros posts Hin. rewrite filterPostsForUser_filter in Hin.
    apply filter_In in Hin. destruct Hin as [_ Hkeep]. congruence.
  - intros Posts Comments id Hfind.
    assert (Hget : getPost Posts Comments viewer id
                   = (Failure 403 "AUTH_003", Posts)).
    { unfold getPost. rewrite Hfind, Hneq. simpl.
      destruct viewer as [u|]; [|reflexivity].
      destruct Hout as [Hid Hadm]. rewrite Hadm.
      replace (userId post =? UserModel._id u) with false; [reflexivity|].
      symmetry. apply Z.eqb_neq. congruence. }
    rewrite Hget. repeat split.
Qed.

Lemma non_public_hidden_from_outsiders_witness :
  isVisible removedPost (Some bob) = false
  /\ getPost [annsPost; removedPost] [] (Some bob) 11
     = (Failure 403 "AUTH_003", [annsPost; removedPost]).
Proof.
  destruct (non_public_hidden_from_outsiders removedPost (Some bob))
    as (Hhidden & _ & Hget).
  - simpl. discriminate.
  - simpl. split; [lia | reflexivity].
  - split; [exact Hhidden|].
    apply (Hget [annsPost; removedPost] [] 11). reflexivity.
Defined.

(** C1, the case the code misses.  Ann has blocked Bob, and Bob has not
    blocked Ann.  The filter keeps Ann's public post for Bob, and Bob's feed
    returns it: the block list of the author is never consulted. *)
Theorem post_shown_to_viewer_blocked_by_author :
  In (UserModel._id bob) (UserModel.blockedUsers ann)
  /\ userId annsPost = UserModel._id ann
  /\ isVisible annsPost (Some bob) = true
  /\ filterPostsForUser [annsPost] (Some bob) = [annsPost]
  /\ returned (getPersonalizedFeed [annsPost] (Some bob) None None)
     = [annsPost].
Proof. repeat split; simpl; auto. Qed.

End VisibilityFilter.

(** ** Reactions *)

Section Reactions.

Lemma jsString_eqb_eq (s t : jsString) : JS.eqb s t = true <-> s = t.
Proof.
  revert t. induction s as [| c s IH]; intros [| d t]; simpl;
    try (split; (reflexivity || discriminate)).
  rewrite andb_true_iff, N.eqb_eq, IH. split.
  - intros [-> ->]. reflexivity.
  - intros [= -> ->]. now split.
Qed.

Lemma getField_updField_same {A : Type} (k : ReactionType) (f : A -> A)
  (obj : PerReaction A) :
  getField k (updField k f obj) = f (getField k obj).
Proof. destruct k; reflexivity. Qed.

Lemma getField_updField_other {A : Type} (k k' : ReactionType) (f : A -> A)
  (obj : PerReaction A) :
  k <> k' -> getField k' (updField k f obj) = getField k' obj.
Proof. destruct k, k'; intros H; try reflexivity; contradiction. Qed.

Lemma ReactionType_eq_dec (k k' : ReactionType) : {k = k'} + {k <> k'}.
Proof. decide equality. Qed.

Lemma hasReacted_In (uid : Z) (ids : list Z) :
  existsb (fun userId => userId =? uid) ids = true <-> In uid ids.
Proof.
  rewrite existsb_exists. split.
  - intros [x [Hin Heq]]. apply Z.eqb_eq in Heq. now subst.
  - intros Hin. exists uid. split; [exact Hin | apply Z.eqb_refl].
Qed.

Lemma NoDup_snoc {A : Type} (l : list A) (x : A) :
  NoDup l -> ~ In x l -> NoDup (l ++ [x]).
Proof.
  induction 1 as [| y l Hy Hnd IH]; simpl; intros Hx.
  - constructor; [intros [] | constructor].
  - constructor.
    + rewrite in_app_iff. simpl. intros [H | [H | []]]; [tauto|].
      apply Hx. now left.
    + apply IH. intros H. apply Hx. now right.
Qed.

Lemma pull_absent (uid : Z) (ids : list Z) :
  ~ In uid ids -> filter (fun id => negb (id =? uid)) ids = ids.
Proof.
  induction ids as [| y ids IH]; simpl; intros Hn; trivial.
  destruct (y =? uid) eqn:E.
  - apply Z.eqb_eq in E. tauto.
  - simpl. f_equal. apply IH. tauto.
Qed.

(** On a list without duplicates [$pull] removes exactly one element. *)
Lemma pull_length_nat (uid : Z) (ids : list Z) :
  NoDup ids -> In uid ids ->
  S (List.length (filter (fun id => negb (id =? uid)) ids)) = List.length ids.
Proof.
  induction 1 as [| y ids Hy Hnd IH]; simpl; intros Hin; [contradiction|].
  destruct (y =? uid) eqn:E; simpl.
  - apply Z.eqb_eq in E. subst y. now rewrite pull_absent.
  - apply Z.eqb_neq in E. destruct Hin as [-> | Hin]; [congruence|].
    now rewrite IH.
Qed.

Lemma pull_length (uid : Z) (ids : list Z) :
  NoDup ids -> In uid ids ->
  Z.of_nat (List.length (filter (fun id => negb (id =? uid)) ids))
  = Z.of_nat (List.length ids) + -1.
Proof. intros Hnd Hin. pose proof (pull_length_nat uid ids Hnd Hin). lia. Qed.

Lemma pull_NoDup (uid : Z) (ids : list Z) :
  NoDup ids -> NoDup (filter (fun id => negb (id =? uid)) ids).
Proof. apply NoDup_filter. Qed.

(** The update documents of the two handlers, taken by themselves, keep the
    reaction invariant: [$inc] by one with [$push] of a user who is not yet
    listed, and [$inc] by minus one with [$pull] of a user who is. *)
Lemma incAndPush_consistent (k : ReactionType) (uid : Z) (p : Post) :
  reactionsConsistent p ->
  ~ In uid (getField k (reactionUsers p)) ->
  reactionsConsistent (Mongo.incAndPush k uid p).
Proof.
  intros Hp Hnew k'. destruct (Hp k') as [Hnd Hlen]. simpl.
  destruct (ReactionType_eq_dec k k') as [<- | Hne].
  - rewrite !getField_updField_same. split.
    + now apply NoDup_snoc.
    + rewrite length_app. simpl. lia.
  - rewrite !getField_updField_other by assumption. now split.
Qed.

Lemma decAndPull_consistent (k : ReactionType) (uid : Z) (p : Post) :
  reactionsConsistent p ->
  In uid (getField k (reactionUsers p)) ->
  reactionsConsistent (Mongo.decAndPull k uid p).
Proof.
  intros Hp Hold k'. destruct (Hp k') as [Hnd Hlen]. simpl.
  destruct (ReactionType_eq_dec k k') as [<- | Hne].
  - rewrite !getField_updField_same. split.
    + now apply pull_NoDup.
    + rewrite pull_length by assumption. lia.
  - rewrite !getField_updField_other by assumption. now split.
Qed.

Lemma findByIdAndUpdate_found (id : Z) (update : Post -> Post)
  (Posts : list Post) (p : Post) :
  (forall q, _id (update q) = _id q) ->
  Mongo.findById id Posts = Some p ->
  Mongo.findById id (Mongo.findByIdAndUpdate id update Posts)
  = Some (update p).
Proof.
  intros Hid. unfold Mongo.findById.
  induction Posts as [| q Posts IH]; simpl; [discriminate|].
  destruct (_id q =? id) eqn:E; simpl.
  - intros [= <-]. now rewrite Hid, E.
  - rewrite E. exact IH.
Qed.

(** Why the invariant asks for sets: on a list that holds an id twice
    [$pull] removes both occurrences while the counter drops by one. *)
Lemma pull_removes_every_occurrence :
  getField redHeart
    (reactions (Mongo.decAndPull redHeart 2 twicePushedPost)) = 1
  /\ getField redHeart
       (reactionUsers (Mongo.decAndPull redHeart 2 twicePushedPost)) = [].
Proof. split; reflexivity. Qed.

(** No text that the handlers accept is a key of the schema, and no key of
    the schema is a text that they accept. *)
Lemma validReactions_no_key (type : jsString) :
  existsb (JS.eqb type) validReactions = true -> keyOf type = None.
Proof.
  unfold validReactions. cbn [existsb]. rewrite !orb_true_iff.
  intros [H | [H | [H | [H | [H | H]]]]]; try discriminate;
    apply jsString_eqb_eq in H; subst type; reflexivity.
Qed.

Lemma schemaKey_not_valid (k : ReactionType) :
  existsb (JS.eqb (schemaKey k)) validReactions = false.
Proof. destruct k; reflexivity. Qed.

Lemma keyOf_schemaKey (k : ReactionType) : keyOf (schemaKey k) = Some k.
Proof. destruct k; reflexivity. Qed.

(** What is left of [addReaction]: its three guards, and the exception for
    every type that passes the first of them. *)
Lemma addReaction_guards (Posts : list Post) (user : User) (id : Z)
  (type : option jsString) :
  addReaction Posts user id type
  = (match type with
     | None => Failure 400 "POST_004"
     | Some name =>
         if existsb (JS.eqb name) validReactions then
           match Mongo.findById id Posts with
           | None => Failure 404 "POST_001"
           | Some post =>
               if visibility_eqb (visibility post) public
               then Failure 500 "SERVER_001"
               else Failure 403 "POST_005"
           end
         else Failure 400 "POST_004"
     end, Posts).
Proof.
  unfold addReaction. destruct type as [name|]; [|reflexivity].
  destruct (existsb (JS.eqb name) validReactions) eqn:Hvalid; [|reflexivity].
  cbn [negb]. destruct (Mongo.findById id Posts) as [post|]; [|reflexivity].
  destruct (visibility_eqb (visibility post) public); [|reflexivity].
  cbn [negb]. now rewrite (validReactions_no_key name Hvalid).
Qed.

Lemma removeReaction_guards (Posts : list Post) (user : User) (id : Z)
  (type : jsString) :
  removeReaction Posts user id type
  = (if existsb (JS.eqb type) validReactions then
       match Mongo.findById id Posts with
       | None => Failure 404 "POST_001"
       | Some _ => Failure 500 "SERVER_001"
       end
     else Failure 400 "POST_004", Posts).
Proof.
  unfold removeReaction.
  destruct (existsb (JS.eqb type) validReactions) eqn:Hvalid; [|reflexivity].
  cbn [negb]. destruct (Mongo.findById id Posts) as [post|]; [|reflexivity].
  now rewrite (validReactions_no_key type Hvalid).
Qed.


(** C9.  Bob is in the red-heart list of a public post and asks to add a red
    heart again.  The request is refused, and the post is left as it is, but
    not as a repeated reaction: the red heart of the schema is refused as an
    invalid type (400 POST_004), as is the key of every kind, and the first
    text of [validReactions] ends in the exception handler (500
    SERVER_001).  The answer 400 POST_006 is given to no request at all. *)
Theorem repeated_reaction_not_reported :
  In (UserModel._id bob) (getField redHeart (reactionUsers reactedPost))
  /\ visibility reactedPost = public
  /\ addReaction [reactedPost] bob 12 (Some (schemaKey redHeart))
     = (Failure 400 "POST_004", [reactedPost])
  /\ addReaction [reactedPost] bob 12 (Some [226; 164; 239; 184]%N)
     = (Failure 500 "SERVER_001", [reactedPost])
  /\ (forall (Posts : list Post) (user : User) (id : Z) (k : ReactionType),
        addReaction Posts user id (Some (schemaKey k))
        = (Failure 400 "POST_004", Posts))
  /\ (forall (Posts : list Post) (user : User) (id : Z)
             (type : option jsString),
        fst (addReaction Posts user id type) <> Failure 400 "POST_006").
Proof.
  split; [simpl; now left|]. split; [reflexivity|]. split; [reflexivity|].
  split; [reflexivity|]. split.
  - intros Posts user id k. rewrite addReaction_guards.
    now rewrite schemaKey_not_valid.
  - intros Posts user id type. rewrite addReaction_guards. cbn [fst].
    destruct type as [name|]; [|discriminate].
    destruct (existsb _ _); [|discriminate].
    destruct (Mongo.findById id Posts) as [post|]; [|discriminate].
    destruct (visibility_eqb _ _); discriminate.
Qed.

End Reactions.

(** ** Search *)

Section Search.

Lemma trimStart_nil (s : jsString) :
  trimStart s = [] <-> forallb isWhiteSpace s = true.
Proof.
  induction s as [| c s IH]; simpl; [tauto|].
  destruct (isWhiteSpace c); simpl; [exact IH|].
  split; discriminate.
Qed.

(** What [trimStart] leaves is empty or starts with a character that is not
    white space. *)
Lemma trimStart_blank (s : jsString) :
  forallb isWhiteSpace (trimStart s) = true -> trimStart s = [].
Proof.
  induction s as [| c s IH]; simpl; trivial.
  destruct (isWhiteSpace c) eqn:E; trivial.
  simpl. rewrite E. discriminate.
Qed.

Lemma forallb_rev {A : Type} (f : A -> bool) (l : list A) :
  forallb f (rev l) = forallb f l.
Proof.
  induction l as [| x l IH]; simpl; trivial.
  rewrite forallb_app, IH. simpl. rewrite andb_true_r. apply andb_comm.
Qed.

(** The trimmed term is empty exactly for the terms made of white space. *)
Lemma trim_nil (s : jsString) :
  trim s = [] <-> forallb isWhiteSpace s = true.
Proof.
  unfold trim, trimEnd. split.
  - intros H. apply (f_equal (@rev N)) in H. rewrite rev_involutive in H.
    simpl in H. apply trimStart_nil in H. rewrite forallb_rev in H.
    apply trimStart_blank in H. now apply trimStart_nil.
  - intros H. apply trimStart_nil in H. now rewrite H.
Qed.

Lemma jsString_eqb_nil (s : jsString) : JS.eqb s [] = true <-> s = [].
Proof. destruct s; simpl; split; congruence. Qed.

(** C8.  A search whose term is absent, empty or white space only is
    answered with the validation error 400 SEARCH_001, a client error with
    [success = false], never with a successful empty result.  A search whose
    trimmed term is not empty never gets this error: it is answered with
    what the search service returns for the trimmed term, status 200, or
    with 500 when the service fails. *)
Theorem blank_search_term_rejected :
  forall (service : SearchService) (user : option User) (q : option jsString)
         (cursor limit : option Z) (sortBy language : option jsString),
    let resp := searchPosts service user q cursor limit sortBy language in
    (blankTerm q ->
       resp = Failure 400 "SEARCH_001"
       /\ clientError resp = true /\ success resp = false)
    /\ (forall term, q = Some term -> trim term <> [] ->
          resp <> Failure 400 "SEARCH_001"
          /\ clientError resp = false
          /\ (status resp = 200 \/ status resp = 500)).
Proof.
  intros service user q cursor limit sortBy language resp. split.
  - intros Hblank.
    assert (Hresp : resp = Failure 400 "SEARCH_001").
    { subst resp. unfold searchPosts. destruct q as [term|]; [|reflexivity].
      simpl in Hblank. apply trim_nil in Hblank. rewrite Hblank.
      simpl. now rewrite orb_true_r. }
    rewrite Hresp. repeat split.
  - intros term -> Hterm. subst resp. unfold searchPosts.
    assert (Hnonempty : truthy (Some term) = true).
    { destruct term; [|reflexivity]. now contradiction Hterm. }
    rewrite Hnonempty.
    replace (JS.eqb (trim term) []) with false
      by (symmetry; apply not_true_is_false; now rewrite jsString_eqb_nil).
    simpl. destruct (service _ _ _); simpl; repeat split; auto; discriminate.
Qed.

Lemma blank_search_term_rejected_witness :
  (searchPosts emptyIndex None (Some (ofString "  ")) None None None None
   = Failure 400 "SEARCH_001")
  /\ clientError
       (searchPosts emptyIndex None (Some (ofString " cats ")) None None None
          None)
     = false.
Proof.
  split.
  - apply (blank_search_term_rejected emptyIndex None (Some (ofString "  "))
             None None None None).
    reflexivity.
  - destruct (blank_search_term_rejected emptyIndex None
                (Some (ofString " cats ")) None None None None) as [_ H].
    apply (H (ofString " cats ")).
    + reflexivity.
    + discriminate.
Defined.

End Search.

(** ** Cursor pagination *)

Section Pagination.

Lemma limit_positive {A : Type} (n : Z) (l : list A) :
  0 < n -> Mongo.limit n l = firstn (Z.to_nat n) l.
Proof.
  intros Hn. unfold Mongo.limit.
  destruct (n =? 0) eqn:E; [apply Z.eqb_eq in E; lia|].
  now rewrite Z.abs_eq by lia.
Qed.

Lemma limit_length {A : Type} (n : Z) (l : list A) :
  0 < n -> Z.of_nat (List.length (Mongo.limit n l)) <= n.
Proof.
  intros Hn. rewrite limit_positive by assumption.
  rewrite length_firstn. lia.
Qed.

Lemma limit_Subsequence {A : Type} (n : Z) (l : list A) :
  Subsequence (Mongo.limit n l) l.
Proof.
  assert (Hrefl : forall l' : list A, Subsequence l' l').
  { induction l'; constructor; assumption. }
  assert (Hfirstn : forall k (l' : list A), Subsequence (firstn k l') l').
  { induction k as [| k IH]; intros [| x l']; simpl; try constructor.
    - clear. induction l'; constructor; assumption.
    - apply IH. }
  unfold Mongo.limit. destruct (n =? 0); [apply Hrefl | apply Hfirstn].
Qed.

Lemma pop_Subsequence {A : Type} (l : list A) : Subsequence (pop l) l.
Proof.
  unfold pop. induction l as [| x [| y l] IH]; simpl.
  - constructor.
  - repeat constructor.
  - constructor. exact IH.
Qed.

(** [pop] after a fetch of [n + 1] documents leaves the first [n]. *)
Lemma pop_overflow {A : Type} (n : nat) (l : list A) :
  List.length l = S n -> pop l = firstn n l.
Proof.
  intros Hlen. unfold pop. rewrite removelast_firstn_len, Hlen. reflexivity.
Qed.

Lemma lastItem_firstn {A : Type} (n : nat) (l : list A) :
  (n < List.length l)%nat -> lastItem (firstn (S n) l) = nth_error l n.
Proof.
  revert l. induction n as [| n IH]; intros [| x l] Hlen; simpl in *;
    try lia.
  - destruct l; reflexivity.
  - specialize (IH l ltac:(lia)). destruct l as [| y l]; [simpl in *; lia|].
    exact IH.
Qed.

(** The feed handler, with the fetch named. *)
Lemma getPersonalizedFeed_fetched (Posts : list Post) (user : option User)
  (cursor limit : option Z) :
  let n := parsedLimit limit in
  let fetched := Mongo.findPosts (feedQuery user cursor) (n + 1) Posts in
  let page := if n <? Z.of_nat (List.length fetched) then pop fetched
              else fetched in
  getPersonalizedFeed Posts user cursor limit
  = Success 200 (forViewer user page)
      (Some (mkPagination (option_map _id (lastItem (forViewer user page)))
               (n <? Z.of_nat (List.length fetched)) None)).
Proof. destruct user; reflexivity. Qed.

(** The sibling listing [searchPosts] gives a cursor exactly when it
    reports more results. *)
Lemma searchPosts_cursor_follows_hasMore (service : SearchService)
  (user : option User) (q : option jsString) (cursor limit : option Z)
  (sortBy language : option jsString) :
  success (searchPosts service user q cursor limit sortBy language) = true ->
  (nextCursorOf (searchPosts service user q cursor limit sortBy language)
   <> None
   <-> hasMoreOf (searchPosts service user q cursor limit sortBy language)
       = true).
Proof.
  unfold searchPosts. destruct q as [term|]; [|discriminate].
  destruct (negb (truthy (Some term)) || JS.eqb (trim term) []);
    [discriminate|].
  destruct (service _ _ _) as [found|]; [|discriminate].
  intros _. unfold nextCursorOf, hasMoreOf. cbn [pagination nextCursor hasMore].
  destruct (moreResults found); split; congruence.
Qed.

(** C4.  The cursor of the feed does not follow [hasMore].  Dan filters the
    keyword of the newer of two public posts and asks for pages of one post.
    The store returns both posts, so that [hasMore] is true; the overflow
    post is dropped and Dan's filter drops the other: the page is empty and
    [nextCursor] is null, although the older post is visible to Dan.  Asking
    again without a cursor is the same request, so that Dan never gets that
    post.  In the other direction, the feed of a single post has no further
    page and still gives a cursor, the id of that post. *)
Theorem feed_cursor_does_not_follow_hasMore :
  Mongo.findPosts (feedQuery (Some dan) None) (1 + 1) [spoilerPost; plainPost]
  = [spoilerPost; plainPost]
  /\ hasMoreOf
       (getPersonalizedFeed [spoilerPost; plainPost] (Some dan) None (Some 1))
     = true
  /\ returned
       (getPersonalizedFeed [spoilerPost; plainPost] (Some dan) None (Some 1))
     = []
  /\ nextCursorOf
       (getPersonalizedFeed [spoilerPost; plainPost] (Some dan) None (Some 1))
     = None
  /\ isVisible plainPost (Some dan) = true
  /\ hasMoreOf (getPersonalizedFeed [annsPost] None None None) = false
  /\ nextCursorOf (getPersonalizedFeed [annsPost] None None None) = Some 10.
Proof. repeat split. Qed.

(** How the feed builds its page.  For a page size [n >= 0] the store
    returns at most [n + 1] posts and [hasMore] tells whether it returned
    more than [n].  When it did, the overflow post is dropped and the
    response holds the first [n] fetched posts that pass the viewer's
    filter; otherwise it holds the fetched posts that pass it.
    [nextCursor] is computed from the returned posts alone.  With
    [limit = 15], sixteen posts fetched and no viewer, the first fifteen are
    returned, [hasMore] is true and [nextCursor] is the id of the
    fifteenth. *)
Lemma feed_page_and_cursor :
  forall (Posts : list Post) (user : option User) (cursor limit : option Z),
    let n := parsedLimit limit in
    let fetched := Mongo.findPosts (feedQuery user cursor) (n + 1) Posts in
    let resp := getPersonalizedFeed Posts user cursor limit in
    0 <= n ->
    Z.of_nat (List.length fetched) <= n + 1
    /\ hasMoreOf resp = (n <? Z.of_nat (List.length fetched))
    /\ (hasMoreOf resp = true ->
        returned resp = forViewer user (firstn (Z.to_nat n) fetched))
    /\ (hasMoreOf resp = false -> returned resp = forViewer user fetched)
    /\ nextCursorOf resp = option_map _id (lastItem (returned resp))
    /\ (limit = Some 15 -> List.length fetched = 16%nat -> user = None ->
        returned resp = firstn 15 fetched
        /\ List.length (returned resp) = 15%nat
        /\ hasMoreOf resp = true
        /\ nextCursorOf resp = option_map _id (nth_error fetched 14)).
Proof.
  intros Posts user cursor limit n fetched resp Hn.
  assert (Hlen : Z.of_nat (List.length fetched) <= n + 1).
  { subst fetched. unfold Mongo.findPosts. apply limit_length. lia. }
  subst resp. rewrite getPersonalizedFeed_fetched. fold n. fold fetched.
  cbn [hasMoreOf nextCursorOf returned pagination hasMore nextCursor].
  split; [exact Hlen|]. split; [reflexivity|]. split; [|split; [|split]].
  - intros Hmore. rewrite Hmore. apply Z.ltb_lt in Hmore.
    rewrite (pop_overflow (Z.to_nat n)) by lia. reflexivity.
  - intros Hmore. now rewrite Hmore.
  - reflexivity.
  - intros Hlimit Hsixteen ->.
    assert (Hmore : (n <? Z.of_nat (List.length fetched)) = true).
    { subst n. rewrite Hlimit, Hsixteen. reflexivity. }
    rewrite Hmore. cbn [forViewer].
    rewrite (pop_overflow 15) by assumption.
    split; [reflexivity|].
    split; [rewrite length_firstn, Hsixteen; reflexivity|].
    split; [reflexivity|].
    apply f_equal. apply (lastItem_firstn 14). lia.
Qed.

Lemma feed_page_of_fifteen :
  returned (getPersonalizedFeed (postsFrom 1 20) None None (Some 15))
  = firstn 15
      (Mongo.findPosts (feedQuery None None) (15 + 1) (postsFrom 1 20))
  /\ List.length
       (returned (getPersonalizedFeed (postsFrom 1 20) None None (Some 15)))
     = 15%nat
  /\ hasMoreOf (getPersonalizedFeed (postsFrom 1 20) None None (Some 15))
     = true
  /\ nextCursorOf (getPersonalizedFeed (postsFrom 1 20) None None (Some 15))
     = Some 6.
Proof.
  destruct (feed_page_and_cursor (postsFrom 1 20) None None (Some 15))
    as (_ & _ & _ & _ & _ & H).
  - vm_compute. discriminate.
  - destruct H as (H1 & H2 & H3 & H4); try reflexivity.
    repeat split; try assumption.
Defined.

(** *** The next page lies below the previous one *)

Lemma Subsequence_In {A : Type} (l l' : list A) (x : A) :
  Subsequence l l' -> In x l -> In x l'.
Proof.
  induction 1 as [| y l l' _ IH | y l l' _ IH]; simpl; intros Hin.
  - exact Hin.
  - destruct Hin as [-> | Hin]; [now left | right; now apply IH].
  - right. now apply IH.
Qed.

Lemma Subsequence_trans {A : Type} (l1 l2 l3 : list A) :
  Subsequence l1 l2 -> Subsequence l2 l3 -> Subsequence l1 l3.
Proof.
  intros H12 H23. revert l1 H12.
  induction H23 as [| x l2 l3 _ IH | x l2 l3 _ IH]; intros l1 H12.
  - exact H12.
  - inversion H12; subst; constructor; now apply IH.
  - constructor. now apply IH.
Qed.

Lemma Subsequence_sorted {A : Type} (R : A -> A -> Prop) (l l' : list A) :
  Subsequence l l' -> StronglySorted R l' -> StronglySorted R l.
Proof.
  induction 1 as [| x l l' Hsub IH | x l l' Hsub IH]; intros Hs.
  - constructor.
  - apply StronglySorted_inv in Hs. destruct Hs as [Hs Hall].
    constructor; [now apply IH|].
    rewrite Forall_forall in *. intros y Hy. apply Hall.
    now apply (Subsequence_In l l').
  - apply StronglySorted_inv in Hs. now apply IH.
Qed.

Lemma insertDesc_In {A : Type} (key : A -> Z) (x y : A) (l : list A) :
  In y (Mongo.insertDesc key x l) <-> y = x \/ In y l.
Proof.
  induction l as [| z l IH]; simpl; [intuition congruence|].
  destruct (key z <=? key x); simpl; [intuition congruence|].
  rewrite IH. intuition congruence.
Qed.

Lemma sortDesc_In {A : Type} (key : A -> Z) (y : A) (l : list A) :
  In y (Mongo.sortDesc key l) <-> In y l.
Proof.
  induction l as [| x l IH]; simpl; [tauto|].
  rewrite insertDesc_In, IH. intuition congruence.
Qed.

Lemma insertDesc_sorted {A : Type} (key : A -> Z) (x : A) (l : list A) :
  StronglySorted (fun a b => key b <= key a) l ->
  StronglySorted (fun a b => key b <= key a) (Mongo.insertDesc key x l).
Proof.
  induction 1 as [| z l Hs IH Hall]; simpl.
  - repeat constructor.
  - destruct (key z <=? key x) eqn:E.
    + apply Z.leb_le in E. constructor; [now constructor|].
      constructor; [exact E|].
      rewrite Forall_forall in *. intros y Hy. specialize (Hall y Hy). lia.
    + apply Z.leb_gt in E. constructor; [exact IH|].
      rewrite Forall_forall in *. intros y Hy.
      apply insertDesc_In in Hy. destruct Hy as [-> | Hy]; [lia|].
      now apply Hall.
Qed.

(** [sort({ key: -1 })] returns its documents in descending key order. *)
Lemma sortDesc_sorted {A : Type} (key : A -> Z) (l : list A) :
  StronglySorted (fun a b => key b <= key a) (Mongo.sortDesc key l).
Proof.
  induction l as [| x l IH]; simpl; [constructor|].
  now apply insertDesc_sorted.
Qed.

Lemma lastItem_In {A : Type} (l : list A) (z : A) :
  lastItem l = Some z -> In z l.
Proof.
  induction l as [| x [| y l] IH]; simpl in *; try discriminate.
  - intros [= ->]. now left.
  - intros H. right. now apply IH.
Qed.

(** The last document of a descending list has the least key. *)
Lemma lastItem_least {A : Type} (key : A -> Z) (l : list A) (z : A) :
  StronglySorted (fun a b => key b <= key a) l ->
  lastItem l = Some z ->
  forall a, In a l -> key z <= key a.
Proof.
  induction 1 as [| x l Hs IH Hall]; [discriminate|].
  intros Hlast a Hin.
  destruct l as [| y l].
  - simpl in Hlast. injection Hlast as <-.
    destruct Hin as [-> | []]. lia.
  - change (lastItem (y :: l) = Some z) in Hlast.
    destruct Hin as [-> | Hin]; [|now apply IH].
    rewrite Forall_forall in Hall. apply Hall. now apply lastItem_In.
Qed.

Lemma Subsequence_refl {A : Type} (l : list A) : Subsequence l l.
Proof. induction l; constructor; assumption. Qed.

Lemma forViewer_Subsequence (user : option User) (posts : list Post) :
  Subsequence (forViewer user posts) posts.
Proof.
  destruct user as [u|]; simpl.
  - apply filter_Subsequence.
  - apply Subsequence_refl.
Qed.

Create HintDb listing.
#[local] Hint Resolve Subsequence_refl filter_Subsequence limit_Subsequence
  pop_Subsequence forViewer_Subsequence : listing.
#[local] Hint Extern 2 (Subsequence _ _) =>
  eapply Subsequence_trans; [solve [auto with listing] |] : listing.

(** A page is a subsequence of the sorted matches of its query. *)
Lemma listingPage_Subsequence (n m : Z) (user : option User)
  (q : Mongo.PostFilter) (Posts : list Post) :
  Subsequence (listingPage n user (Mongo.findPosts q m Posts))
    (Mongo.sortDesc createdAt (filter (Mongo.matches q) Posts)).
Proof.
  unfold listingPage, Mongo.findPosts.
  destruct (n <? _); auto 6 with listing.
Qed.

Lemma listingPage_In (n m : Z) (user : option User) (q : Mongo.PostFilter)
  (Posts : list Post) (p : Post) :
  In p (listingPage n user (Mongo.findPosts q m Posts)) ->
  In p Posts /\ Mongo.matches q p = true.
Proof.
  intros Hin.
  apply (Subsequence_In _ _ _ (listingPage_Subsequence n m user q Posts)) in Hin.
  apply sortDesc_In in Hin. now apply filter_In in Hin.
Qed.

Lemma matches_cursor (q : Mongo.PostFilter) (c : Z) (p : Post) :
  Mongo.id_lt q = Some c -> Mongo.matches q p = true -> _id p < c.
Proof.
  unfold Mongo.matches. intros ->. rewrite !andb_true_iff.
  intros [[[_ Hlt] _] _]. now apply Z.ltb_lt.
Qed.

(** The core of cursor pagination.  When ids follow creation times, a page
    fetched below the cursor that a previous page produced holds only posts
    below every post of that page, in id and in creation time. *)
Lemma page_below_cursor (Posts : list Post) (q q' : Mongo.PostFilter)
  (n m n' m' c : Z) (user user' : option User) :
  idsFollowCreation Posts ->
  option_map _id (lastItem (listingPage n user (Mongo.findPosts q m Posts)))
  = Some c ->
  Mongo.id_lt q' = Some c ->
  forall b, In b (listingPage n' user' (Mongo.findPosts q' m' Posts)) ->
    (forall a, In a (listingPage n user (Mongo.findPosts q m Posts)) ->
       _id b < _id a /\ createdAt b < createdAt a)
    /\ ~ In b (listingPage n user (Mongo.findPosts q m Posts)).
Proof.
  intros Hagree Hcursor Hq' b Hb.
  destruct (lastItem (listingPage n user (Mongo.findPosts q m Posts)))
    as [z|] eqn:Hlast; [|discriminate].
  injection Hcursor as <-.
  pose proof (listingPage_Subsequence n m user q Posts) as Hsub.
  pose proof (Subsequence_sorted _ _ _ Hsub (sortDesc_sorted createdAt _))
    as Hsorted.
  pose proof (lastItem_least createdAt _ z Hsorted Hlast) as Hleast.
  pose proof (lastItem_In _ _ Hlast) as Hz.
  apply listingPage_In in Hz. destruct Hz as [Hz _].
  destruct (listingPage_In _ _ _ _ _ _ Hb) as [HbPosts Hbq].
  pose proof (matches_cursor q' (_id z) b Hq' Hbq) as Hbz.
  assert (Hbelow : forall a,
            In a (listingPage n user (Mongo.findPosts q m Posts)) ->
            _id b < _id a /\ createdAt b < createdAt a).
  { intros a Ha. specialize (Hleast a Ha).
    apply listingPage_In in Ha. destruct Ha as [Ha _].
    assert (Hza : _id z <= _id a).
    { destruct (Z.le_gt_cases (_id z) (_id a)) as [H | H]; [exact H|].
      apply (Hagree a z Ha Hz) in H. lia. }
    assert (Hba : _id b < _id a) by lia.
    split; [exact Hba|]. now apply (Hagree b a HbPosts Ha). }
  split; [exact Hbelow|].
  intros Hin. specialize (Hbelow b Hin). lia.
Qed.

Lemma getPersonalizedFeed_page (Posts : list Post) (user : option User)
  (cursor limit : option Z) :
  returned (getPersonalizedFeed Posts user cursor limit)
  = listingPage (parsedLimit limit) user
      (Mongo.findPosts (feedQuery user cursor) (parsedLimit limit + 1) Posts)
  /\ nextCursorOf (getPersonalizedFeed Posts user cursor limit)
     = option_map _id (lastItem (returned
                                  (getPersonalizedFeed Posts user cursor limit))).
Proof. rewrite getPersonalizedFeed_fetched. split; reflexivity. Qed.

Lemma getCategoryPosts_page (Categories : list Category) (Posts : list Post)
  (user : option User) (id : jsString) (cursor limit : option Z)
  (category : Category) :
  find (fun c => JS.eqb (CategoryModel.slug c) id && CategoryModel.isActive c)
    Categories = Some category ->
  returned (getCategoryPosts Categories Posts user id cursor limit)
  = listingPage (limitOrDefault limit) user
      (Mongo.findPosts (categoryQuery category cursor)
         (limitOrDefault limit + 1) Posts)
  /\ nextCursorOf (getCategoryPosts Categories Posts user id cursor limit)
     = option_map _id
         (lastItem (returned
                      (getCategoryPosts Categories Posts user id cursor limit))).
Proof.
  intros Hfind. unfold getCategoryPosts. rewrite Hfind.
  destruct user; split; reflexivity.
Qed.

(** C5.  The feed sorts on [createdAt] and cuts the next page on [_id].  In
    a collection of three posts whose ids run against their creation times,
    the first page of two posts ends with the cursor 2; the page fetched
    with that cursor returns the post of id 1 again, which the first page
    had returned, and the creation time of that post is not below that of
    the posts of the first page.  The oldest post, of id 3, is on neither
    page. *)
Theorem page_repeated_when_ids_run_against_creation :
  returned
    (getPersonalizedFeed [lateSmallId; middlePost; earlyLargeId] None None
       (Some 2))
  = [lateSmallId; middlePost]
  /\ hasMoreOf
       (getPersonalizedFeed [lateSmallId; middlePost; earlyLargeId] None None
          (Some 2))
     = true
  /\ nextCursorOf
       (getPersonalizedFeed [lateSmallId; middlePost; earlyLargeId] None None
          (Some 2))
     = Some 2
  /\ returned
       (getPersonalizedFeed [lateSmallId; middlePost; earlyLargeId] None
          (Some 2) (Some 2))
     = [lateSmallId]
  /\ hasMoreOf
       (getPersonalizedFeed [lateSmallId; middlePost; earlyLargeId] None
          (Some 2) (Some 2))
     = false
  /\ ~ createdAt lateSmallId < createdAt middlePost.
Proof. repeat split. simpl. lia. Qed.

(** Where the cut happens to be sound: in a collection that does not change
    between the two requests and whose ids follow creation times, every post
    of the page requested with the [nextCursor] of a page is below every
    post of that page, in id and in creation time.  This holds for the feed
    and for the category listing. *)
Lemma next_page_below_previous_page :
  forall (Posts : list Post) (user : option User),
    idsFollowCreation Posts ->
    (forall (cursor limit limit' : option Z) (c : Z),
       nextCursorOf (getPersonalizedFeed Posts user cursor limit) = Some c ->
       forall b,
         In b (returned (getPersonalizedFeed Posts user (Some c) limit')) ->
         (forall a,
            In a (returned (getPersonalizedFeed Posts user cursor limit)) ->
            _id b < _id a /\ createdAt b < createdAt a)
         /\ ~ In b (returned (getPersonalizedFeed Posts user cursor limit)))
    /\ (forall (Categories : list Category) (id : jsString)
               (cursor limit limit' : option Z) (c : Z),
          nextCursorOf (getCategoryPosts Categories Posts user id cursor limit)
          = Some c ->
          forall b,
            In b (returned
                    (getCategoryPosts Categories Posts user id (Some c) limit')) ->
            (forall a,
               In a (returned
                       (getCategoryPosts Categories Posts user id cursor limit)) ->
               _id b < _id a /\ createdAt b < createdAt a)
            /\ ~ In b (returned
                         (getCategoryPosts Categories Posts user id cursor
                            limit))).
Proof.
  intros Posts user Hagree. split.
  - intros cursor limit limit' c Hcursor b Hb.
    destruct (getPersonalizedFeed_page Posts user cursor limit) as [Hpage Hnext].
    destruct (getPersonalizedFeed_page Posts user (Some c) limit') as [Hpage' _].
    rewrite Hnext, Hpage in Hcursor. rewrite Hpage' in Hb. rewrite Hpage.
    refine (page_below_cursor Posts _ _ _ _ _ _ c user user Hagree Hcursor _
              b Hb).
    reflexivity.
  - intros Categories id cursor limit limit' c Hcursor b Hb.
    destruct (find (fun c0 => JS.eqb (CategoryModel.slug c0) id
                              && CategoryModel.isActive c0) Categories)
      as [category|] eqn:Hfind.
    + destruct (getCategoryPosts_page Categories Posts user id cursor limit
                  category Hfind) as [Hpage Hnext].
      destruct (getCategoryPosts_page Categories Posts user id (Some c) limit'
                  category Hfind) as [Hpage' _].
      rewrite Hnext, Hpage in Hcursor. rewrite Hpage' in Hb. rewrite Hpage.
      refine (page_below_cursor Posts _ _ _ _ _ _ c user user Hagree Hcursor
                _ b Hb).
      reflexivity.
    + unfold getCategoryPosts in Hcursor. rewrite Hfind in Hcursor.
      discriminate.
Qed.

Lemma postsFrom_createdAt (first count : nat) (p : Post) :
  In p (postsFrom first count) -> createdAt p = _id p.
Proof.
  unfold postsFrom. rewrite in_map_iff. intros [i [<- _]]. reflexivity.
Qed.

Lemma next_page_of_ordered_posts :
  _id (newPost 3 1 3 public) < _id (newPost 4 1 4 public)
  /\ createdAt (newPost 3 1 3 public) < createdAt (newPost 4 1 4 public).
Proof.
  destruct (next_page_below_previous_page (postsFrom 1 5) None) as [H _].
  - intros a b Ha Hb.
    rewrite (postsFrom_createdAt 1 5 a Ha), (postsFrom_createdAt 1 5 b Hb).
    tauto.
  - destruct (H None (Some 2) (Some 2) 4 eq_refl (newPost 3 1 3 public))
      as [Hbelow _].
    + simpl. left. reflexivity.
    + apply (Hbelow (newPost 4 1 4 public)). simpl. right. left. reflexivity.
Defined.

(** *** The ceiling on the page size *)

Lemma Subsequence_length {A : Type} (l l' : list A) :
  Subsequence l l' -> (List.length l <= List.length l')%nat.
Proof. induction 1; simpl; lia. Qed.

Lemma parsedLimit_ceiling (limit : option Z) : parsedLimit limit <= 50.
Proof. unfold parsedLimit. lia. Qed.

(** A page holds at most [n] posts when at most [n + 1] were fetched. *)
Lemma listingPage_length (n : Z) (user : option User) (fetched : list Post) :
  0 <= n ->
  Z.of_nat (List.length fetched) <= n + 1 ->
  Z.of_nat (List.length (listingPage n user fetched)) <= n.
Proof.
  intros Hn Hfetched. unfold listingPage.
  destruct (n <? Z.of_nat (List.length fetched)) eqn:E.
  - apply Z.ltb_lt in E.
    pose proof (Subsequence_length _ _
                  (forViewer_Subsequence user (pop fetched))) as Hsub.
    rewrite (pop_overflow (Z.to_nat n)) in Hsub by lia.
    rewrite length_firstn in Hsub.
    rewrite (pop_overflow (Z.to_nat n)) by lia. lia.
  - apply Z.ltb_ge in E.
    pose proof (Subsequence_length _ _ (forViewer_Subsequence user fetched)).
    lia.
Qed.

(** The feed clamps: for a limit that is not negative it queries the store
    for at most fifty-one posts and returns at most fifty. *)
Lemma feed_within_ceiling (Posts : list Post) (user : option User)
  (cursor limit : option Z) :
  0 <= parsedLimit limit ->
  Z.of_nat (List.length (returned (getPersonalizedFeed Posts user cursor limit)))
  <= 50.
Proof.
  intros Hn.
  destruct (getPersonalizedFeed_page Posts user cursor limit) as [-> _].
  pose proof (parsedLimit_ceiling limit) as Hceil.
  pose proof (listingPage_length (parsedLimit limit) user
                (Mongo.findPosts (feedQuery user cursor)
                   (parsedLimit limit + 1) Posts) Hn) as Hpage.
  assert (Hfetched :
            Z.of_nat (List.length (Mongo.findPosts (feedQuery user cursor)
                                     (parsedLimit limit + 1) Posts))
            <= parsedLimit limit + 1).
  { unfold Mongo.findPosts. apply limit_length. lia. }
  specialize (Hpage Hfetched). lia.
Qed.

(** C7, the listing that does not clamp.  The category listing passes the
    requested limit to the store as it is: asked for a hundred posts of a
    category that matches a hundred and one, it returns a hundred, where the
    feed asked the same returns fifty. *)
Theorem category_listing_exceeds_ceiling :
  List.length
    (returned
       (getCategoryPosts [generalCategory] (postsFrom 1 101) None
          (ofString "general") None (Some 100)))
  = 100%nat
  /\ hasMoreOf
       (getCategoryPosts [generalCategory] (postsFrom 1 101) None
          (ofString "general") None (Some 100))
     = true
  /\ List.length
       (returned (getPersonalizedFeed (postsFrom 1 101) None None (Some 100)))
     = 50%nat.
Proof. repeat split; vm_compute; reflexivity. Qed.

(** The clamp bounds the limit from above only.  A limit of -1 makes the
    feed ask the store for [limit(0)], which is no limit: the feed returns a
    hundred of a hundred and one posts. *)
Lemma feed_unbounded_for_limit_minus_one :
  List.length
    (returned (getPersonalizedFeed (postsFrom 1 101) None None (Some (-1))))
  = 100%nat.
Proof. vm_compute. reflexivity. Qed.

End Pagination.

(** * Further properties of the modelled code *)

(** A guard that answers with a failure leaves nothing to prove about a
    successful response. *)
Ltac declined := intros [= <- <-]; discriminate.

(** ** Reactions: what the handlers answer *)

Section ReactionOutcomes.

Lemma pull_after_push (uid : Z) (ids : list Z) :
  ~ In uid ids -> filter (fun id => negb (id =? uid)) (ids ++ [uid]) = ids.
Proof.
  intros Hnew. rewrite filter_app, pull_absent by assumption.
  simpl. rewrite Z.eqb_refl. simpl. apply app_nil_r.
Qed.

(** X2.  What the reaction handlers answer.  A type outside
    [validReactions] is refused with 400 POST_004.  For a type of
    [validReactions], a missing post is 404 POST_001, a post that is not
    public is 403 POST_005 for [addReaction], and every other request ends
    with 500 SERVER_001; [removeReaction] has no visibility guard.  A
    request without a type is refused with 400 POST_004. *)
Theorem reaction_request_outcomes :
  forall (Posts : list Post) (user : User) (id : Z) (type : jsString),
    (existsb (JS.eqb type) validReactions = false ->
       addReaction Posts user id (Some type) = (Failure 400 "POST_004", Posts)
       /\ removeReaction Posts user id type = (Failure 400 "POST_004", Posts))
    /\ (existsb (JS.eqb type) validReactions = true ->
          (Mongo.findById id Posts = None ->
             addReaction Posts user id (Some type)
             = (Failure 404 "POST_001", Posts)
             /\ removeReaction Posts user id type
                = (Failure 404 "POST_001", Posts))
          /\ (forall post,
                Mongo.findById id Posts = Some post ->
                (visibility post <> public ->
                   addReaction Posts user id (Some type)
                   = (Failure 403 "POST_005", Posts))
                /\ (visibility post = public ->
                      addReaction Posts user id (Some type)
                      = (Failure 500 "SERVER_001", Posts))
                /\ removeReaction Posts user id type
                   = (Failure 500 "SERVER_001", Posts)))
    /\ addReaction Posts user id None = (Failure 400 "POST_004", Posts).
Proof.
  intros Posts user id type.
  rewrite !addReaction_guards, removeReaction_guards.
  split; [intros ->; now split|]. split; [|reflexivity].
  intros ->. split.
  - intros ->. now split.
  - intros post ->. split; [|split; [|reflexivity]].
    + intros Hhidden.
      destruct (visibility_eqb (visibility post) public) eqn:E; [|reflexivity].
      apply visibility_eqb_eq in E. contradiction.
    + intros ->. reflexivity.
Qed.

End ReactionOutcomes.

(** ** The feed and the single post *)

Section FeedAndPost.

Lemma matches_inv (q : Mongo.PostFilter) (p : Post) :
  Mongo.matches q p = true ->
  visibility p = public
  /\ (forall c, Mongo.id_lt q = Some c -> _id p < c)
  /\ (forall ids, Mongo.userId_nin q = Some ids -> ~ In (userId p) ids)
  /\ (forall tags, Mongo.hashtags_in q = Some tags ->
        exists h, In h (hashtags p) /\ existsb (JS.eqb h) tags = true).
Proof.
  unfold Mongo.matches. rewrite !andb_true_iff.
  intros [[[Hvis Hid] Hnin] Htags]. split; [now apply visibility_eqb_eq|].
  split; [|split].
  - intros c Hc. rewrite Hc in Hid. now apply Z.ltb_lt.
  - intros ids Hids Hin. rewrite Hids in Hnin.
    apply negb_true_iff in Hnin.
    assert (existsb (Z.eqb (userId p)) ids = true); [|congruence].
    apply existsb_exists. exists (userId p). split; trivial. apply Z.eqb_refl.
  - intros tags Ht. rewrite Ht in Htags. apply existsb_exists in Htags.
    destruct Htags as [h [Hh Hex]]. now exists h.
Qed.

Lemma forViewer_In (user : option User) (posts : list Post) (p : Post) :
  In p (forViewer user posts) <-> In p posts /\ (user = None \/ isVisible p user = true).
Proof.
  destruct user as [u|]; simpl.
  - rewrite filter_In. intuition congruence.
  - intuition.
Qed.

Lemma keepsPost_not_blocked (u : User) (p : Post) :
  keepsPost u p = true -> ~ In (userId p) (UserModel.blockedUsers u).
Proof.
  intros Hkeep Hin. pose proof (blocked_author_hidden p u Hin) as H.
  simpl in H. congruence.
Qed.

(** What the query and the filter of the feed let through. *)
Lemma feed_page_sound (Posts : list Post) (user : option User)
  (cursor limit : option Z) (p : Post) :
  In p (returned (getPersonalizedFeed Posts user cursor limit)) ->
  In p Posts
  /\ visibility p = public
  /\ isVisible p user = true
  /\ (forall c, cursor = Some c -> _id p < c)
  /\ (forall u, user = Some u -> ~ In (userId p) (UserModel.blockedUsers u)).
Proof.
  intros Hin.
  destruct (getPersonalizedFeed_page Posts user cursor limit) as [Hpage _].
  rewrite Hpage in Hin.
  pose proof Hin as Hq. apply listingPage_In in Hq. destruct Hq as [HPosts Hq].
  apply matches_inv in Hq. destruct Hq as (Hvis & Hcur & _ & _).
  unfold listingPage in Hin. apply forViewer_In in Hin.
  destruct Hin as [_ Hview].
  assert (Hvisible : isVisible p user = true).
  { destruct Hview as [-> | H]; [|exact H].
    simpl. now apply visibility_eqb_eq. }
  split; [exact HPosts|]. split; [exact Hvis|]. split; [exact Hvisible|].
  split.
  - intros c Hc. subst cursor. now apply Hcur.
  - intros u Hu. subst user. now apply keepsPost_not_blocked.
Qed.

(** X3.  Whatever the request, every post the feed returns is a public post
    of the collection that lies below the cursor, that the filter keeps for
    the viewer and, for an authenticated viewer, whose author is not on the
    viewer's block list. *)
Theorem feed_returns_only_visible_posts :
  forall (Posts : list Post) (user : option User) (cursor limit : option Z)
         (p : Post),
    In p (returned (getPersonalizedFeed Posts user cursor limit)) ->
    In p Posts
    /\ visibility p = public
    /\ isVisible p user = true
    /\ (forall c, cursor = Some c -> _id p < c)
    /\ (forall u, user = Some u -> ~ In (userId p) (UserModel.blockedUsers u)).
Proof. exact feed_page_sound. Qed.

Lemma feed_returns_only_visible_posts_witness :
  visibility annsPost = public /\ isVisible annsPost (Some bob) = true.
Proof.
  destruct (feed_returns_only_visible_posts [annsPost; removedPost] (Some bob)
              None None annsPost) as (_ & Hvis & Hkeep & _).
  - simpl. left. reflexivity.
  - split; assumption.
Defined.

Lemma firstn_short {A : Type} (k : nat) (l : list A) :
  (List.length (firstn k l) < k)%nat -> firstn k l = l.
Proof.
  intros Hlen. rewrite length_firstn in Hlen.
  apply firstn_all2. lia.
Qed.

(** X4.  When [hasMore] is false, for a limit that is not negative, the page
    is complete: every public post of the collection below the cursor that
    the filter keeps for the viewer is on it. *)
Theorem last_feed_page_is_complete :
  forall (Posts : list Post) (user : option User) (cursor limit : option Z)
         (p : Post),
    0 <= parsedLimit limit ->
    hasMoreOf (getPersonalizedFeed Posts user cursor limit) = false ->
    In p Posts ->
    isVisible p user = true ->
    (forall c, cursor = Some c -> _id p < c) ->
    In p (returned (getPersonalizedFeed Posts user cursor limit)).
Proof.
  intros Posts user cursor limit p Hn Hmore HPosts Hvisible Hcur.
  rewrite getPersonalizedFeed_fetched in *.
  cbn [hasMoreOf pagination hasMore returned] in *.
  rewrite Hmore. apply Z.ltb_ge in Hmore.
  apply forViewer_In. split.
  - unfold Mongo.findPosts in *. rewrite limit_positive in * by lia.
    rewrite firstn_short by lia.
    apply sortDesc_In. apply filter_In. split; [exact HPosts|].
    unfold Mongo.matches, feedQuery. cbn [Mongo.id_lt Mongo.userId_nin
                                           Mongo.hashtags_in].
    rewrite !andb_true_iff. repeat split.
    + apply visibility_eqb_eq. now apply (isVisible_public p user).
    + destruct cursor as [c|]; trivial. apply Z.ltb_lt. now apply Hcur.
    + destruct user as [u|]; trivial.
      destruct (0 <? _); trivial. apply negb_true_iff.
      apply not_true_is_false. intros Hex. apply existsb_exists in Hex.
      destruct Hex as [x [Hx Heq]]. apply Z.eqb_eq in Heq. subst x.
      now apply (keepsPost_not_blocked u p).
  - destruct user; [right; exact Hvisible | now left].
Qed.

Lemma last_feed_page_is_complete_witness :
  In annsPost
    (returned (getPersonalizedFeed [annsPost; removedPost] (Some bob) None None)).
Proof.
  apply (last_feed_page_is_complete [annsPost; removedPost] (Some bob) None
           None annsPost).
  - vm_compute. discriminate.
  - reflexivity.
  - simpl. left. reflexivity.
  - reflexivity.
  - discriminate.
Defined.

Lemma findByIdAndUpdate_other (id : Z) (f : Post -> Post) (Posts : list Post)
  (id' : Z) :
  (forall q, _id (f q) = _id q) -> id' <> id ->
  Mongo.findById id' (Mongo.findByIdAndUpdate id f Posts)
  = Mongo.findById id' Posts.
Proof.
  intros Hid Hne. unfold Mongo.findById.
  induction Posts as [| q Posts IH]; simpl; trivial.
  destruct (_id q =? id) eqn:E; simpl.
  - rewrite Hid. apply Z.eqb_eq in E. rewrite E.
    now replace (id =? id') with false by (symmetry; apply Z.eqb_neq; congruence).
  - destruct (_id q =? id'); trivial.
Qed.

(** X5.  A viewer who may see the post (it is public, or the viewer is its
    author or an admin) gets it with status 200, as it was read.  The
    request counts one impression on that post and changes nothing else in
    the collection.  The comments that come with it are at most ten, all of
    them public top-level comments of this post, none of them written by a
    user the viewer blocks. *)
Theorem getPost_counts_one_impression :
  forall (Posts : list Post) (Comments : list Comment) (viewer : option User)
         (id : Z) (post : Post),
    Mongo.findById id Posts = Some post ->
    visibility post = public
    \/ (exists u, viewer = Some u
                  /\ (userId post = UserModel._id u
                      \/ UserModel.isAdmin u = true)) ->
    exists comments,
      getPost Posts Comments viewer id
      = (Success 200 (post, comments) None,
         Mongo.findByIdAndUpdate id Mongo.incImpressionCount Posts)
      /\ Mongo.findById id (snd (getPost Posts Comments viewer id))
         = Some (Mongo.incImpressionCount post)
      /\ (forall id', id' <> id ->
            Mongo.findById id' (snd (getPost Posts Comments viewer id))
            = Mongo.findById id' Posts)
      /\ (List.length comments <= 10)%nat
      /\ (forall c, In c comments ->
            In c Comments
            /\ CommentModel.postId c = id
            /\ CommentModel.parentId c = None
            /\ CommentModel.visibility c = public
            /\ (forall u, viewer = Some u ->
                  ~ In (CommentModel.userId c) (UserModel.blockedUsers u))).
Proof.
  intros Posts Comments viewer id post Hfind Hmay.
  assert (Hguard :
            negb (visibility_eqb (visibility post) public)
            && match viewer with
               | None => true
               | Some u => negb (userId post =? UserModel._id u)
                           && negb (UserModel.isAdmin u)
               end = false).
  { destruct Hmay as [Hpub | (u & -> & [Hauthor | Hadmin])].
    - rewrite Hpub. reflexivity.
    - rewrite Hauthor, Z.eqb_refl. simpl. apply andb_false_r.
    - rewrite Hadmin. simpl. rewrite !andb_false_r. reflexivity. }
  unfold getPost. rewrite Hfind, Hguard.
  eexists. split; [reflexivity|]. cbn [snd].
  split; [now apply findByIdAndUpdate_found|].
  split; [intros id' Hne; now apply findByIdAndUpdate_other|].
  set (fetched := Mongo.limit 10 _).
  assert (Hfetched : forall c, In c fetched ->
            In c Comments /\ CommentModel.postId c = id
            /\ CommentModel.parentId c = None
            /\ CommentModel.visibility c = public).
  { intros c Hc. subst fetched.
    apply (Subsequence_In _ _ _ (limit_Subsequence 10 _)) in Hc.
    apply sortDesc_In in Hc. apply filter_In in Hc.
    destruct Hc as [Hc Hq]. rewrite !andb_true_iff in Hq.
    destruct Hq as [[Hp Hparent] Hvis].
    split; [exact Hc|]. split; [now apply Z.eqb_eq|].
    split; [destruct (CommentModel.parentId c); [discriminate | reflexivity]|].
    now apply visibility_eqb_eq. }
  assert (Hten : (List.length fetched <= 10)%nat).
  { subst fetched. pose proof (limit_length 10 
      (Mongo.sortDesc CommentModel.createdAt
         (filter
            (fun c => (CommentModel.postId c =? id)
                      && match CommentModel.parentId c with
                         | None => true
                         | Some _ => false
                         end
                      && visibility_eqb (CommentModel.visibility c) public)
            Comments)) ltac:(lia)). lia. }
  destruct viewer as [u|]; cbv beta iota.
  - split.
    + pose proof (Subsequence_length _ _
                    (filter_Subsequence
                       (fun comment =>
                          negb (existsb
                                  (fun id0 => id0 =? CommentModel.userId comment)
                                  (UserModel.blockedUsers u))) fetched)).
      eapply Nat.le_trans; [exact H | exact Hten].
    + intros c Hc. apply filter_In in Hc. destruct Hc as [Hc Hnb].
      destruct (Hfetched c Hc) as (H1 & H2 & H3 & H4).
      repeat split; trivial.
      intros u' [= <-] Hin. apply negb_true_iff in Hnb.
      assert (existsb (fun id0 => id0 =? CommentModel.userId c)
                (UserModel.blockedUsers u) = true); [|congruence].
      apply existsb_exists. exists (CommentModel.userId c).
      split; trivial. apply Z.eqb_refl.
  - split; [exact Hten|]. intros c Hc.
    destruct (Hfetched c Hc) as (H1 & H2 & H3 & H4).
    repeat split; trivial. discriminate.
Qed.

Lemma getPost_counts_one_impression_witness :
  exists comments,
    getPost [annsPost; removedPost] [] (Some ann) 11
    = (Success 200 (removedPost, comments) None,
       Mongo.findByIdAndUpdate 11 Mongo.incImpressionCount
         [annsPost; removedPost]).
Proof.
  destruct (getPost_counts_one_impression [annsPost; removedPost] []
              (Some ann) 11 removedPost) as (comments & Hget & _).
  - reflexivity.
  - right. exists ann. split; [reflexivity|]. left. reflexivity.
  - exists comments. exact Hget.
Defined.

End FeedAndPost.

(** ** Hashtags *)

Section HashtagExtraction.

Lemma unique_In (x : jsString) (l : list jsString) :
  In x (Hashtags.unique l) <-> In x l.
Proof.
  induction l as [| y l IH]; simpl; [tauto|].
  rewrite filter_In, IH. split.
  - intros [H | [H _]]; [now left | now right].
  - intros [H | H]; [now left|].
    destruct (JS.eqb x y) eqn:E.
    + apply jsString_eqb_eq in E. left. congruence.
    + right. split; [exact H | reflexivity].
Qed.

Lemma unique_NoDup (l : list jsString) : NoDup (Hashtags.unique l).
Proof.
  induction l as [| y l IH]; simpl; constructor.
  - rewrite filter_In. intros [_ H]. cbv beta in H.
    assert (Hyy : JS.eqb y y = true) by now apply jsString_eqb_eq.
    rewrite Hyy in H. discriminate.
  - now apply NoDup_filter.
Qed.

Lemma wordPrefix_words (s : jsString) :
  forallb Hashtags.isWordChar (Hashtags.wordPrefix s) = true.
Proof.
  induction s as [| c s IH]; simpl; trivial.
  destruct (Hashtags.isWordChar c) eqn:E; simpl; trivial.
  now rewrite E.
Qed.

(** A run of word characters is captured exactly when it follows a [#] and
    is not empty. *)
Lemma captures_spec (content w : jsString) :
  In w (Hashtags.captures content)
  <-> exists before rest,
        content = before ++ 35%N :: rest
        /\ Hashtags.wordPrefix rest = w /\ w <> [].
Proof.
  induction content as [| c content IH]; simpl.
  - split; [tauto|]. intros (before & rest & H & _).
    destruct before; discriminate.
  - assert (Hlater :
      In w (Hashtags.captures content)
      <-> exists before rest,
            c :: content = (c :: before) ++ 35%N :: rest
            /\ Hashtags.wordPrefix rest = w /\ w <> []).
    { rewrite IH. split; intros (before & rest & H & Hw).
      - exists before, rest. simpl. split; [congruence | exact Hw].
      - exists before, rest. simpl in H. split; [congruence | exact Hw]. }
    destruct (c =? 35)%N eqn:E.
    + apply N.eqb_eq in E. subst c.
      destruct (Hashtags.wordPrefix content) as [| d run] eqn:Hrun.
      * rewrite Hlater. split.
        -- intros (before & rest & H & Hw). now exists (35%N :: before), rest.
        -- intros (before & rest & H & Hw & Hne).
           destruct before as [| b before].
           ++ simpl in H. injection H as <-. congruence.
           ++ simpl in H. injection H as <- H.
              exists before, rest. simpl. split; [congruence | now split].
      * simpl. rewrite Hlater. split.
        -- intros [<- | (before & rest & H & Hw)].
           ++ exists [], content. simpl. repeat split; trivial. discriminate.
           ++ now exists (35%N :: before), rest.
        -- intros (before & rest & H & Hw & Hne).
           destruct before as [| b before].
           ++ simpl in H. injection H as <-. left. congruence.
           ++ simpl in H. injection H as <- H. right.
              exists before, rest. simpl. split; [congruence | now split].
    + rewrite Hlater. split.
      * intros (before & rest & H & Hw). now exists (c :: before), rest.
      * intros (before & rest & H & Hw).
        destruct before as [| b before].
        -- simpl in H. injection H as -> _. rewrite N.eqb_refl in E.
           discriminate.
        -- simpl in H. injection H as <- H.
           exists before, rest. simpl. split; [congruence | exact Hw].
Qed.

Lemma lowerUnit_word (c : N) :
  Hashtags.isWordChar c = true -> isLowerWordChar (lowerUnit c) = true.
Proof.
  unfold Hashtags.isWordChar, isLowerWordChar, lowerUnit.
  destruct ((65 <=? c) && (c <=? 90))%N eqn:Hupper.
  - intros _. apply andb_true_iff in Hupper. destruct Hupper as [H1 H2].
    apply N.leb_le in H1, H2.
    replace ((97 <=? c + 32) && (c + 32 <=? 122))%N with true;
      [apply orb_true_r|].
    symmetry. apply andb_true_iff. split; apply N.leb_le; lia.
  - rewrite orb_false_r. intros H.
    apply orb_true_iff in H. destruct H as [H | H]; [|now rewrite H, orb_true_r].
    apply orb_true_iff in H. destruct H as [H | H]; rewrite H; trivial.
    now rewrite orb_true_r.
Qed.

Lemma lowerUnit_lower (c : N) :
  isLowerWordChar c = true -> lowerUnit c = c.
Proof.
  unfold isLowerWordChar, lowerUnit. intros H.
  destruct ((65 <=? c) && (c <=? 90))%N eqn:Hupper; trivial.
  apply andb_true_iff in Hupper. destruct Hupper as [H1 H2].
  apply N.leb_le in H1, H2.
  rewrite !orb_true_iff, !andb_true_iff, !N.leb_le, N.eqb_eq in H. lia.
Qed.

Lemma toLowerCase_words (w : jsString) :
  forallb Hashtags.isWordChar w = true ->
  forallb isLowerWordChar (toLowerCase w) = true.
Proof.
  induction w as [| c w IH]; simpl; trivial.
  rewrite !andb_true_iff. intros [Hc Hw].
  split; [now apply lowerUnit_word | now apply IH].
Qed.

Lemma toLowerCase_fixed (w : jsString) :
  forallb isLowerWordChar w = true -> toLowerCase w = w.
Proof.
  induction w as [| c w IH]; simpl; trivial.
  rewrite andb_true_iff. intros [Hc Hw].
  now rewrite lowerUnit_lower, IH.
Qed.

(** X6.  The hashtags extracted from a content hold no tag twice, and every
    tag is a non-empty string of digits, underscores and lower-case letters,
    which is its own lower case. *)
Theorem extractHashtags_well_formed :
  forall content : jsString,
    NoDup (Hashtags.extractHashtags content)
    /\ forall tag, In tag (Hashtags.extractHashtags content) ->
         tag <> []
         /\ forallb isLowerWordChar tag = true
         /\ toLowerCase tag = tag.
Proof.
  intros content. split; [apply unique_NoDup|].
  intros tag Htag. unfold Hashtags.extractHashtags in Htag.
  rewrite unique_In, in_map_iff in Htag.
  destruct Htag as (w & <- & Hw). apply captures_spec in Hw.
  destruct Hw as (before & rest & _ & <- & Hne).
  pose proof (toLowerCase_words _ (wordPrefix_words rest)) as Hlower.
  split; [|split].
  - destruct (Hashtags.wordPrefix rest); [congruence | discriminate].
  - exact Hlower.
  - now apply toLowerCase_fixed.
Qed.

(** X7.  A string is among the extracted hashtags exactly when it is the
    lower case of a non-empty run of word characters that directly follows
    a [#] of the content, the run taken as long as it goes.  Tags that
    differ only in letter case are one tag. *)
Theorem extractHashtags_finds_every_tag :
  forall (content tag : jsString),
    In tag (Hashtags.extractHashtags content)
    <-> exists before rest,
          content = before ++ 35%N :: rest
          /\ Hashtags.wordPrefix rest <> []
          /\ tag = toLowerCase (Hashtags.wordPrefix rest).
Proof.
  intros content tag. unfold Hashtags.extractHashtags.
  rewrite unique_In, in_map_iff. split.
  - intros (w & <- & Hw). apply captures_spec in Hw.
    destruct Hw as (before & rest & Hc & <- & Hne). now exists before, rest.
  - intros (before & rest & Hc & Hne & ->).
    exists (Hashtags.wordPrefix rest). split; trivial.
    apply captures_spec. now exists before, rest.
Qed.

End HashtagExtraction.

(** ** Automatic moderation and the creation of a post *)

Section Creation.

Lemma filter_nonempty {A : Type} (f : A -> bool) (l : list A) :
  (0 <? Z.of_nat (List.length (filter f l))) = true
  <-> exists x, In x l /\ f x = true.
Proof.
  rewrite Z.ltb_lt. split.
  - destruct (filter f l) as [| x rest] eqn:E; [simpl; lia|].
    intros _. exists x. apply filter_In. rewrite E. now left.
  - intros (x & Hin & Hf).
    assert (Hx : In x (filter f l)) by (apply filter_In; now split).
    destruct (filter f l); [contradiction | simpl; lia].
Qed.

Lemma detected_iff (content : jsString) :
  ModerationService.detected
    (ModerationService.checkProhibitedContent content) = true
  <-> exists keyword,
        In keyword ModerationService.prohibitedKeywords
        /\ includes (toLowerCase content) keyword = true.
Proof.
  unfold ModerationService.checkProhibitedContent.
  cbn [ModerationService.detected]. apply filter_nonempty.
Qed.

Lemma shouldModerate_iff (content : jsString)
  (user : option AccountModel.Account) :
  ModerationService.shouldModerate
    (ModerationService.autoModerateContent content user) = true
  <-> (forall u, user = Some u ->
         AccountModel.autoModeration (AccountModel.contentSettings u) = true)
      /\ exists keyword,
           In keyword ModerationService.prohibitedKeywords
           /\ includes (toLowerCase content) keyword = true.
Proof.
  pose proof (detected_iff content) as Hdet.
  unfold ModerationService.autoModerateContent.
  destruct (match user with
            | Some u =>
                negb (AccountModel.autoModeration
                        (AccountModel.contentSettings u))
            | None => false
            end) eqn:Hoff.
  - cbn. split; [discriminate|]. intros [Hon _].
    destruct user as [u|]; [|discriminate].
    rewrite (Hon u eq_refl) in Hoff. discriminate.
  - assert (Hon : forall u, user = Some u ->
              AccountModel.autoModeration (AccountModel.contentSettings u)
              = true).
    { intros u ->. now apply negb_false_iff in Hoff. }
    assert (Hsev :
      ModerationService.severity
        (ModerationService.checkProhibitedContent content)
      = if ModerationService.detected
             (ModerationService.checkProhibitedContent content)
        then ModerationService.medium else ModerationService.low)
      by reflexivity.
    rewrite Hsev.
    destruct (ModerationService.detected
                (ModerationService.checkProhibitedContent content)) eqn:E;
      cbn.
    + split; [intros _; split; [exact Hon | now apply Hdet] | reflexivity].
    + split; [discriminate|]. intros [_ Hkw]. apply Hdet in Hkw. discriminate.
Qed.

(** X8.  [autoModerateContent] asks for moderation exactly when the user has
    not disabled it and the content holds one of the four prohibited
    keywords, in any letter case.  The reason it gives is then always
    'Content may be inappropriate': the branch for a high severity is never
    taken, as the check never reports one. *)
Theorem autoModerateContent_decision :
  forall (content : jsString) (user : option AccountModel.Account),
    (ModerationService.shouldModerate
       (ModerationService.autoModerateContent content user) = true
     <-> (forall u, user = Some u ->
            AccountModel.autoModeration (AccountModel.contentSettings u) = true)
         /\ exists keyword,
              In keyword ModerationService.prohibitedKeywords
              /\ includes (toLowerCase content) keyword = true)
    /\ (ModerationService.shouldModerate
          (ModerationService.autoModerateContent content user) = true ->
        ModerationService.moderationReason
          (ModerationService.autoModerateContent content user)
        = Some "Content may be inappropriate"%string)
    /\ ModerationService.resultSeverity
         (ModerationService.autoModerateContent content user)
       <> Some ModerationService.high.
Proof.
  intros content user.
  pose proof (detected_iff content) as Hdet.
  unfold ModerationService.autoModerateContent.
  assert (Hsev :
    ModerationService.severity
      (ModerationService.checkProhibitedContent content)
    = if ModerationService.detected
           (ModerationService.checkProhibitedContent content)
      then ModerationService.medium else ModerationService.low)
    by reflexivity.
  destruct (match user with
            | Some u =>
                negb (AccountModel.autoModeration
                        (AccountModel.contentSettings u))
            | None => false
            end) eqn:Hoff.
  - cbn. split; [|split; [discriminate | discriminate]].
    split; [discriminate|]. intros [Hon _].
    destruct user as [u|]; [|discriminate].
    rewrite (Hon u eq_refl) in Hoff. discriminate.
  - assert (Hon : forall u, user = Some u ->
              AccountModel.autoModeration (AccountModel.contentSettings u)
              = true).
    { intros u ->. now apply negb_false_iff in Hoff. }
    rewrite Hsev.
    destruct (ModerationService.detected
                (ModerationService.checkProhibitedContent content)) eqn:E;
      cbn.
    + split; [|split; [reflexivity | discriminate]].
      split; [intros _; split; [exact Hon | now apply Hdet] | reflexivity].
    + split; [|split; [discriminate | discriminate]].
      split; [discriminate|]. intros [_ Hkw]. apply Hdet in Hkw. discriminate.
Qed.

Lemma blank_content (text : jsString) :
  negb (truthy (Some text)) || JS.eqb (trim text) [] = true
  <-> forallb isWhiteSpace text = true.
Proof.
  rewrite <- trim_nil. rewrite orb_true_iff, jsString_eqb_nil. split.
  - intros [H | H]; [|exact H]. destruct text; [reflexivity | discriminate].
  - intros H. now right.
Qed.

(** X9.  [createPost] refuses a content that is absent, empty or white space
    only with 400 POST_003.  A content of more than 1000 code units passes
    that check and fails the validation of the schema, which the handler
    reports as the server error 500 SERVER_001.  Neither request changes
    the collection. *)
Theorem createPost_rejections :
  forall (Posts : list Post) (user : AccountModel.Account)
         (content contentWarning : option jsString) (newId now : Z),
    (blankTerm content ->
     createPost Posts user content contentWarning newId now
     = (Failure 400 "POST_003", Posts))
    /\ (forall text,
          content = Some text ->
          forallb isWhiteSpace text = false ->
          (1000 < List.length text)%nat ->
          createPost Posts user content contentWarning newId now
          = (Failure 500 "SERVER_001", Posts)).
Proof.
  intros Posts user content contentWarning newId now. split.
  - intros Hblank. unfold createPost.
    destruct content as [text|]; [|reflexivity].
    simpl in Hblank. apply blank_content in Hblank. now rewrite Hblank.
  - intros text -> Hink Hlong. unfold createPost.
    replace (negb (truthy (Some text)) || JS.eqb (trim text) []) with false.
    + replace (1000 <? Z.of_nat (List.length text)) with true; [reflexivity|].
      symmetry. apply Z.ltb_lt. lia.
    + symmetry. apply not_true_is_false. rewrite blank_content. congruence.
Qed.

Lemma createPost_rejections_witness :
  createPost [] (moderatedAccount ann)
    (Some (repeat 120%N 1001)) None 30 9000
  = (Failure 500 "SERVER_001", []).
Proof.
  destruct (createPost_rejections [] (moderatedAccount ann)
              (Some (repeat 120%N 1001)) None 30 9000) as [_ H].
  apply (H (repeat 120%N 1001)).
  - reflexivity.
  - reflexivity.
  - rewrite repeat_length. lia.
Defined.

(** X10.  A content that is not blank and holds at most 1000 code units is
    stored as a new post at the end of the collection and answered with
    201.  The post carries the given id, author, time and content, the
    hashtags extracted from the content, and counters that agree with its
    empty reactor lists.  It is stored as [moderated] exactly when the
    author has automatic moderation on and the content holds a prohibited
    keyword; otherwise it is public.  A post stored as moderated is returned
    by no feed request. *)
Theorem createPost_stores_post :
  forall (Posts : list Post) (user : AccountModel.Account)
         (text : jsString) (contentWarning : option jsString)
         (newId now : Z),
    forallb isWhiteSpace text = false ->
    (List.length text <= 1000)%nat ->
    exists post,
      createPost Posts user (Some text) contentWarning newId now
      = (Success 201 post None, Posts ++ [post])
      /\ _id post = newId
      /\ userId post = UserModel._id (AccountModel.document user)
      /\ createdAt post = now
      /\ content post = text
      /\ hashtags post = Hashtags.extractHashtags text
      /\ reactionsConsistent post
      /\ (visibility post = moderated
          <-> AccountModel.autoModeration (AccountModel.contentSettings user)
              = true
              /\ exists keyword,
                   In keyword ModerationService.prohibitedKeywords
                   /\ includes (toLowerCase text) keyword = true)
      /\ (visibility post = moderated \/ visibility post = public)
      /\ (visibility post = moderated ->
          forall viewer cursor limit,
            ~ In post
                (returned
                   (getPersonalizedFeed (Posts ++ [post]) viewer cursor limit))).
Proof.
  intros Posts user text contentWarning newId now Hink Hshort.
  unfold createPost.
  replace (negb (truthy (Some text)) || JS.eqb (trim text) []) with false
    by (symmetry; apply not_true_is_false; rewrite blank_content; congruence).
  replace (1000 <? Z.of_nat (List.length text)) with false
    by (symmetry; apply Z.ltb_ge; lia).
  eexists. split; [reflexivity|]. cbn [_id userId createdAt content hashtags].
  do 5 (split; [reflexivity|]).
  split; [intros k; destruct k; simpl; split; (constructor || reflexivity)|].
  cbn [visibility].
  pose proof (shouldModerate_iff text (Some user)) as Hdec.
  set (flagged := AccountModel.autoModeration (AccountModel.contentSettings user)
                  && ModerationService.shouldModerate
                       (ModerationService.autoModerateContent text (Some user))).
  assert (Hflagged :
    flagged = true
    <-> AccountModel.autoModeration (AccountModel.contentSettings user) = true
        /\ exists keyword,
             In keyword ModerationService.prohibitedKeywords
             /\ includes (toLowerCase text) keyword = true).
  { subst flagged. rewrite andb_true_iff, Hdec. split.
    - intros [Hon [_ Hkw]]. now split.
    - intros [Hon Hkw]. split; [exact Hon|]. split; [|exact Hkw].
      now intros u [= <-]. }
  split; [|split].
  - rewrite <- Hflagged. destruct flagged; split; congruence.
  - destruct flagged; [now left | now right].
  - intros Hmod viewer cursor limit Hin.
    apply feed_page_sound in Hin.
    destruct Hin as (_ & Hpub & _). cbn [visibility] in Hpub. congruence.
Qed.

Lemma createPost_stores_post_witness :
  exists post,
    createPost [annsPost] (moderatedAccount ann)
      (Some (ofString "An OBSCENE #Rant")) None 30 9000
    = (Success 201 post None, [annsPost] ++ [post])
    /\ hashtags post = [ofString "rant"]
    /\ visibility post = moderated.
Proof.
  destruct (createPost_stores_post [annsPost] (moderatedAccount ann)
              (ofString "An OBSCENE #Rant") None 30 9000)
    as (post & Hcreate & _ & _ & _ & _ & Htags & _ & Hmod & _).
  - reflexivity.
  - simpl. lia.
  - exists post. split; [exact Hcreate|]. split.
    + rewrite Htags. reflexivity.
    + apply Hmod. split; [reflexivity|].
      exists (ofString "obscene"). split; [|reflexivity].
      simpl. right. right. left. reflexivity.
Defined.

Lemma sortDesc_newest_last {A : Type} (key : A -> Z) (l : list A) (x : A) :
  (forall y, In y l -> key y < key x) ->
  Mongo.sortDesc key (l ++ [x]) = x :: Mongo.sortDesc key l.
Proof.
  induction l as [| y l IH]; simpl; intros Hmax; trivial.
  rewrite IH by (intros z Hz; apply Hmax; now right). simpl.
  replace (key x <=? key y) with false; trivial.
  symmetry. apply Z.leb_gt. apply Hmax. now left.
Qed.

Lemma pop_keeps_head {A : Type} (x y : A) (l : list A) :
  pop (x :: y :: l) = x :: pop (y :: l).
Proof. reflexivity. Qed.

(** X11.  A post that is stored as public with a creation time later than
    that of every post of the collection is the first post of the next
    anonymous feed without cursor, for every limit of at least one. *)
Theorem created_post_heads_the_feed :
  forall (Posts : list Post) (user : AccountModel.Account)
         (text : jsString) (contentWarning : option jsString)
         (newId now : Z) (limit : option Z) (post : Post),
    createPost Posts user (Some text) contentWarning newId now
    = (Success 201 post None, Posts ++ [post]) ->
    visibility post = public ->
    (forall p, In p Posts -> createdAt p < now) ->
    1 <= parsedLimit limit ->
    exists others,
      returned (getPersonalizedFeed (Posts ++ [post]) None None limit)
      = post :: others.
Proof.
  intros Posts user text contentWarning newId now limit post Hcreate Hpub
    Hnewest Hlimit.
  assert (Hnow : createdAt post = now).
  { unfold createPost in Hcreate.
    destruct (negb (truthy (Some text)) || JS.eqb (trim text) []);
      [discriminate|].
    destruct (1000 <? Z.of_nat (List.length text)); [discriminate|].
    injection Hcreate as <- _. reflexivity. }
  rewrite getPersonalizedFeed_fetched. cbn [returned forViewer].
  unfold Mongo.findPosts. rewrite filter_app. cbn [filter].
  replace (Mongo.matches (feedQuery None None) post) with true
    by (unfold Mongo.matches; simpl; now rewrite Hpub).
  rewrite sortDesc_newest_last.
  2:{ intros y Hy. apply filter_In in Hy. rewrite Hnow. apply Hnewest, Hy. }
  set (older := Mongo.sortDesc createdAt
                  (filter (Mongo.matches (feedQuery None None)) Posts)).
  rewrite limit_positive by lia.
  replace (Z.to_nat (parsedLimit limit + 1))
    with (S (S (Z.to_nat (parsedLimit limit - 1)))) by lia.
  rewrite firstn_cons.
  destruct (parsedLimit limit <? _) eqn:Hmore; [|now eexists].
  destruct (firstn (S (Z.to_nat (parsedLimit limit - 1))) older)
    as [| y rest] eqn:Hrest.
  - apply Z.ltb_lt in Hmore. cbn [List.length] in Hmore. lia.
  - rewrite pop_keeps_head. now eexists.
Qed.

Lemma created_post_heads_the_feed_witness :
  exists others,
    returned
      (getPersonalizedFeed
         ([annsPost]
          ++ [mkPost 30 2 (ofString "hi #all") 9000 [ofString "all"]
                noReactions noReactors 0 None false None public 0 0 []])
         None None None)
    = mkPost 30 2 (ofString "hi #all") 9000 [ofString "all"] noReactions
        noReactors 0 None false None public 0 0 []
      :: others.
Proof.
  apply (created_post_heads_the_feed [annsPost] (moderatedAccount bob)
           (ofString "hi #all") None 30 9000 None).
  - reflexivity.
  - reflexivity.
  - intros p [<- | []]. simpl. lia.
  - vm_compute. discriminate.
Defined.

End Creation.

(** ** Deletion and moderation of a post *)

Section Removal.

(** [getPost] refuses a post that is not public to an outsider. *)
Lemma getPost_refuses_outsider (Posts : list Post) (Comments : list Comment)
  (viewer : option User) (id : Z) (post : Post) :
  Mongo.findById id Posts = Some post ->
  visibility post <> public ->
  outsider post viewer ->
  getPost Posts Comments viewer id = (Failure 403 "AUTH_003", Posts).
Proof.
  intros Hfind Hvis Hout. unfold getPost. rewrite Hfind.
  replace (visibility_eqb (visibility post) public) with false
    by (symmetry; apply not_true_is_false; now rewrite visibility_eqb_eq).
  simpl. destruct viewer as [u|]; [|reflexivity].
  destruct Hout as [Hid Hadm]. rewrite Hadm.
  replace (userId post =? UserModel._id u) with false; [reflexivity|].
  symmetry. apply Z.eqb_neq. congruence.
Qed.

(** X12.  [deletePost] by the author or an admin marks the post [deleted]
    and changes nothing else in the collection.  From then on no feed
    returns the post and [getPost] refuses it to outsiders with 403, while
    the user who deleted it still gets it with 200.  A user who is neither
    the author nor an admin gets 403 AUTH_003 and changes nothing. *)
Theorem deletePost_hides_post :
  forall (Posts : list Post) (user : User) (id : Z) (post : Post),
    Mongo.findById id Posts = Some post ->
    (userId post = UserModel._id user \/ UserModel.isAdmin user = true ->
     deletePost Posts user id
     = (Success 200 tt None,
        Mongo.findByIdAndUpdate id (MongoMore.withVisibility deleted) Posts)
     /\ Mongo.findById id (snd (deletePost Posts user id))
        = Some (MongoMore.withVisibility deleted post)
     /\ (forall id', id' <> id ->
           Mongo.findById id' (snd (deletePost Posts user id))
           = Mongo.findById id' Posts)
     /\ (forall viewer cursor limit,
           ~ In (MongoMore.withVisibility deleted post)
               (returned
                  (getPersonalizedFeed (snd (deletePost Posts user id)) viewer
                     cursor limit)))
     /\ (forall Comments viewer,
           outsider post viewer ->
           fst (getPost (snd (deletePost Posts user id)) Comments viewer id)
           = Failure 403 "AUTH_003")
     /\ (forall Comments,
           status
             (fst (getPost (snd (deletePost Posts user id)) Comments
                     (Some user) id))
           = 200))
    /\ (userId post <> UserModel._id user -> UserModel.isAdmin user = false ->
        deletePost Posts user id = (Failure 403 "AUTH_003", Posts)).
Proof.
  intros Posts user id post Hfind. split.
  - intros Hmay.
    assert (Hdel : deletePost Posts user id
                   = (Success 200 tt None,
                      Mongo.findByIdAndUpdate id
                        (MongoMore.withVisibility deleted) Posts)).
    { unfold deletePost. rewrite Hfind.
      destruct Hmay as [Hauthor | Hadmin].
      - now rewrite Hauthor, Z.eqb_refl.
      - rewrite Hadmin. simpl. now rewrite andb_false_r. }
    rewrite Hdel. cbn [snd].
    assert (Hfound : Mongo.findById id
                       (Mongo.findByIdAndUpdate id
                          (MongoMore.withVisibility deleted) Posts)
                     = Some (MongoMore.withVisibility deleted post))
      by now apply findByIdAndUpdate_found.
    split; [reflexivity|]. split; [exact Hfound|].
    split; [intros id' Hne; now apply findByIdAndUpdate_other|].
    split; [|split].
    + intros viewer cursor limit Hin. apply feed_page_sound in Hin.
      destruct Hin as (_ & Hpub & _). discriminate.
    + intros Comments viewer Hout.
      rewrite (getPost_refuses_outsider _ Comments viewer id
                 (MongoMore.withVisibility deleted post)); trivial.
      discriminate.
    + intros Comments. unfold getPost. rewrite Hfound.
      cbn [visibility MongoMore.withVisibility userId].
      destruct Hmay as [Hauthor | Hadmin].
      * rewrite Hauthor, Z.eqb_refl. reflexivity.
      * rewrite Hadmin. simpl. rewrite !andb_false_r. reflexivity.
  - intros Hother Hplain. unfold deletePost. rewrite Hfind, Hplain.
    replace (userId post =? UserModel._id user) with false; [reflexivity|].
    symmetry. now apply Z.eqb_neq.
Qed.

Lemma deletePost_hides_post_witness :
  deletePost [annsPost; removedPost] ann 10
  = (Success 200 tt None,
     Mongo.findByIdAndUpdate 10 (MongoMore.withVisibility deleted)
       [annsPost; removedPost])
  /\ deletePost [annsPost; removedPost] bob 10
     = (Failure 403 "AUTH_003", [annsPost; removedPost]).
Proof.
  split.
  - destruct (deletePost_hides_post [annsPost; removedPost] ann 10 annsPost
                eq_refl) as [H _].
    apply H. left. reflexivity.
  - destruct (deletePost_hides_post [annsPost; removedPost] bob 10 annsPost
                eq_refl) as [_ H].
    apply H; [simpl; lia | reflexivity].
Defined.

Lemma moderatePost_found (Posts : list Post) (id : Z)
  (action : ModerationService.ModerationAction) (reason : option jsString)
  (now : Z) (post : Post) :
  Mongo.findById id Posts = Some post ->
  exists text,
    text <> []
    /\ ModerationController.moderatePost Posts id (Some action) reason now
       = (Success 200 (ModerationService.moderatePost post action text now)
            None,
          Mongo.findByIdAndUpdate id
            (fun p => ModerationService.moderatePost p action text now) Posts)
    /\ Mongo.findById id
         (snd (ModerationController.moderatePost Posts id (Some action) reason
                 now))
       = Some (ModerationService.moderatePost post action text now).
Proof.
  intros Hfind. unfold ModerationController.moderatePost. rewrite Hfind.
  set (text := match reason with
               | Some (c :: r) => c :: r
               | _ => ofString "Violation of community guidelines"
               end).
  exists text. split; [|split; [reflexivity|]].
  - subst text. destruct reason as [[| c r]|]; discriminate.
  - cbn [snd].
    apply (findByIdAndUpdate_found id
             (fun p => ModerationService.moderatePost p action text now)
             Posts post);
      [|exact Hfind].
    intros q. destruct action; reflexivity.
Qed.

(** X13.  The moderation action 'remove' takes the post out of every feed,
    marks it as moderated with a reason that is never empty, and adds an
    entry to its edit history.  A following 'restore' makes the post public
    again, clears its content warning, its moderation mark and its reason,
    and adds a second entry to the history.  The restored post is visible to
    anonymous viewers; its other fields are those of the post before the two
    actions, and because of the history the collection is never back as it
    was. *)
Theorem restore_after_remove :
  forall (Posts : list Post) (id : Z) (reason reason' : option jsString)
         (now now' : Z) (post : Post),
    Mongo.findById id Posts = Some post ->
    let removed :=
      snd (ModerationController.moderatePost Posts id
             (Some ModerationService.remove) reason now) in
    let restored :=
      snd (ModerationController.moderatePost removed id
             (Some ModerationService.restore) reason' now') in
    (exists text,
       text <> []
       /\ Mongo.findById id removed
          = Some (MongoMore.withModeration (contentWarning post) true
                    (Some text) moderated
                    (edits post ++ [mkEdit now moderation]) post))
    /\ (forall viewer cursor limit p,
          In p (returned (getPersonalizedFeed removed viewer cursor limit)) ->
          Mongo.findById id removed <> Some p)
    /\ Mongo.findById id restored
       = Some (MongoMore.withModeration None false None public
                 (edits post
                  ++ [mkEdit now moderation; mkEdit now' moderation])
                 post)
    /\ (forall r, Mongo.findById id restored = Some r ->
                  isVisible r None = true)
    /\ restored <> Posts.
Proof.
  intros Posts id reason reason' now now' post Hfind removed restored.
  destruct (moderatePost_found Posts id ModerationService.remove reason now
              post Hfind) as (text & Htext & _ & Hfound).
  fold removed in Hfound. cbn [ModerationService.moderatePost] in Hfound.
  destruct (moderatePost_found removed id ModerationService.restore reason'
              now' _ Hfound) as (text' & _ & _ & Hfound').
  fold restored in Hfound'.
  cbn [ModerationService.moderatePost MongoMore.withModeration edits]
    in Hfound'.
  rewrite <- app_assoc in Hfound'. cbn [app] in Hfound'.
  split; [exists text; now split|]. split; [|split; [|split]].
  - intros viewer cursor limit p Hin Hsame.
    apply feed_page_sound in Hin. destruct Hin as (_ & Hpub & _).
    rewrite Hfound in Hsame. injection Hsame as <-. discriminate.
  - exact Hfound'.
  - intros r Hr. rewrite Hfound' in Hr. injection Hr as <-. reflexivity.
  - intros Hsame. rewrite Hsame, Hfind in Hfound'.
    injection Hfound' as Hpost. apply (f_equal edits) in Hpost.
    cbn [edits MongoMore.withModeration] in Hpost.
    apply (f_equal (@List.length Edit)) in Hpost.
    rewrite length_app in Hpost. simpl in Hpost. lia.
Qed.

Lemma restore_after_remove_witness :
  Mongo.findById 10
    (snd (ModerationController.moderatePost
            (snd (ModerationController.moderatePost [annsPost] 10
                    (Some ModerationService.remove) None 7000))
            10 (Some ModerationService.restore) None 8000))
  = Some (MongoMore.withModeration None false None public
            [mkEdit 7000 moderation; mkEdit 8000 moderation] annsPost).
Proof.
  destruct (restore_after_remove [annsPost] 10 None None 7000 8000 annsPost
              eq_refl) as (_ & _ & H & _).
  exact H.
Defined.

(** X14.  The moderation action 'flag' leaves the post public and gives it a
    content warning that is never empty.  The flagged post stays visible to
    anonymous viewers and, when their other filters keep it, to users who
    turned content filtering off or chose to see sensitive content; it is
    hidden from every user with content filtering on who did not. *)
Theorem flagged_post_visibility :
  forall (Posts : list Post) (id : Z) (reason : option jsString) (now : Z)
         (post : Post),
    Mongo.findById id Posts = Some post ->
    visibility post = public ->
    exists flagged,
      ModerationController.moderatePost Posts id
        (Some ModerationService.flag) reason now
      = (Success 200 flagged None,
         Mongo.findByIdAndUpdate id (fun _ => flagged) Posts)
      /\ truthy (contentWarning flagged) = true
      /\ visibility flagged = public
      /\ isVisible flagged None = true
      /\ (forall u,
            UserModel.contentFiltering
              (UserModel.contentFilters (UserModel.settings u)) = true ->
            UserModel.showSensitiveContent
              (UserModel.contentFilters (UserModel.settings u)) = false ->
            isVisible flagged (Some u) = false)
      /\ (forall u,
            UserModel.contentFiltering
              (UserModel.contentFilters (UserModel.settings u)) = false ->
            isVisible flagged (Some u)
            = negb (existsb (fun i => i =? userId post)
                      (UserModel.blockedUsers u))).
Proof.
  intros Posts id reason now post Hfind Hpub.
  destruct (moderatePost_found Posts id ModerationService.flag reason now post
              Hfind) as (text & Htext & Hmod & _).
  cbn [ModerationService.moderatePost] in Hmod.
  exists (MongoMore.withModeration (Some text) true (Some text)
            (visibility post) (edits post) post).
  split.
  - rewrite Hmod. f_equal.
    clear Hmod. unfold Mongo.findById in Hfind.
    induction Posts as [| q Posts IH]; simpl in *; trivial.
    destruct (_id q =? id).
    + now injection Hfind as ->.
    + f_equal. now apply IH.
  - cbn [contentWarning visibility MongoMore.withModeration].
    split; [destruct text; [congruence | reflexivity]|].
    split; [exact Hpub|]. split; [simpl; now rewrite Hpub|]. split.
    + intros u Hon Hshow. simpl. unfold keepsPost.
      cbn [userId contentWarning MongoMore.withModeration].
      destruct (existsb _ _); trivial. rewrite Hon, Hshow.
      destruct text; [congruence | reflexivity].
    + intros u Hoff. simpl. unfold keepsPost.
      cbn [userId visibility MongoMore.withModeration].
      rewrite Hoff, Hpub. simpl. destruct (existsb _ _); reflexivity.
Qed.

Lemma flagged_post_visibility_witness :
  exists flagged,
    ModerationController.moderatePost [annsPost] 10
      (Some ModerationService.flag) None 7000
    = (Success 200 flagged None,
       Mongo.findByIdAndUpdate 10 (fun _ => flagged) [annsPost])
    /\ isVisible flagged None = true
    /\ isVisible flagged (Some dan) = false.
Proof.
  destruct (flagged_post_visibility [annsPost] 10 None 7000 annsPost eq_refl
              eq_refl)
    as (flagged & Hmod & _ & _ & Hanon & Hhidden & _).
  exists flagged. split; [exact Hmod|]. split; [exact Hanon|].
  apply Hhidden; reflexivity.
Defined.

End Removal.

(** ** Block list and keyword filters *)

Section BlockAndKeywords.

Lemma withBlockedUsers_same (u : User) :
  withBlockedUsers (UserModel.blockedUsers u) u = u.
Proof. destruct u. reflexivity. Qed.

Lemma blockUser_success (findOne : jsString -> option User) (user user' : User)
  (username : jsString) (resp : Response unit) :
  blockUser findOne user username = (resp, user') ->
  success resp = true ->
  exists target,
    findOne username = Some target
    /\ UserModel._id target <> UserModel._id user
    /\ ~ In (UserModel._id target) (UserModel.blockedUsers user)
    /\ user' = withBlockedUsers
                 (UserModel.blockedUsers user ++ [UserModel._id target]) user.
Proof.
  unfold blockUser. destruct (findOne username) as [target|]; [|declined].
  destruct (UserModel._id target =? UserModel._id user) eqn:Hself; [declined|].
  destruct (existsb _ _) eqn:Hblocked; [declined|].
  intros [= <- <-] _. exists target. split; [reflexivity|].
  split; [now apply Z.eqb_neq|]. split; [|reflexivity].
  rewrite <- hasReacted_In. congruence.
Qed.

(** X15.  After a successful [blockUser] the document of the requesting
    user is as before except that the id of the target is appended to its
    block list.  From then on the filter drops every post of the target for
    that user, and no feed request of that user returns one. *)
Theorem blockUser_hides_target_posts :
  forall (findOne : jsString -> option User) (user user' : User)
         (username : jsString) (resp : Response unit),
    blockUser findOne user username = (resp, user') ->
    success resp = true ->
    exists target,
      findOne username = Some target
      /\ UserModel.blockedUsers user'
         = UserModel.blockedUsers user ++ [UserModel._id target]
      /\ UserModel._id user' = UserModel._id user
      /\ UserModel.isAdmin user' = UserModel.isAdmin user
      /\ UserModel.keywordFilters user' = UserModel.keywordFilters user
      /\ UserModel.settings user' = UserModel.settings user
      /\ forall post,
           userId post = UserModel._id target ->
           isVisible post (Some user') = false
           /\ forall Posts cursor limit,
                ~ In post
                    (returned
                       (getPersonalizedFeed Posts (Some user') cursor limit)).
Proof.
  intros findOne user user' username resp Hblock Hok.
  destruct (blockUser_success findOne user user' username resp Hblock Hok)
    as (target & Hfind & _ & _ & ->).
  exists target. split; [exact Hfind|]. do 5 (split; [reflexivity|]).
  intros post Hauthor.
  assert (Hin : In (userId post)
                  (UserModel.blockedUsers
                     (withBlockedUsers
                        (UserModel.blockedUsers user ++ [UserModel._id target])
                        user))).
  { simpl. apply in_or_app. right. left. congruence. }
  split; [now apply blocked_author_hidden|].
  intros Posts cursor limit Hret. apply feed_page_sound in Hret.
  destruct Hret as (_ & _ & _ & _ & Hnb). now apply (Hnb _ eq_refl).
Qed.

Lemma blockUser_hides_target_posts_witness :
  exists target,
    usersByName (ofString "ann") = Some target
    /\ UserModel.blockedUsers (snd (blockUser usersByName bob (ofString "ann")))
       = UserModel.blockedUsers bob ++ [UserModel._id target].
Proof.
  destruct (blockUser_hides_target_posts usersByName bob
              (snd (blockUser usersByName bob (ofString "ann")))
              (ofString "ann")
              (fst (blockUser usersByName bob (ofString "ann")))
              eq_refl eq_refl)
    as (target & Hfind & Hlist & _).
  exists target. split; assumption.
Defined.

(** X16.  [blockUser] and [unblockUser] keep the block list in order,
    whatever their outcome: no id twice, and never the id of the owner, who
    cannot block himself.  After a successful [unblockUser] the target is
    not on the list any more. *)
Theorem block_list_stays_in_order :
  forall (findOne : jsString -> option User) (user : User)
         (username : jsString),
    blockListInOrder user ->
    blockListInOrder (snd (blockUser findOne user username))
    /\ blockListInOrder (snd (unblockUser findOne user username))
    /\ (success (fst (unblockUser findOne user username)) = true ->
        forall target,
          findOne username = Some target ->
          ~ In (UserModel._id target)
              (UserModel.blockedUsers
                 (snd (unblockUser findOne user username)))).
Proof.
  intros findOne user username [Hnd Hself]. split; [|split].
  - unfold blockUser. destruct (findOne username) as [target|];
      [|now split].
    destruct (UserModel._id target =? UserModel._id user) eqn:E; [now split|].
    destruct (existsb _ _) eqn:Hblocked; [now split|].
    apply Z.eqb_neq in E. split; simpl.
    + apply NoDup_snoc; trivial. rewrite <- hasReacted_In. congruence.
    + rewrite in_app_iff. simpl. intros [H | [H | []]]; [tauto | congruence].
  - unfold unblockUser. destruct (findOne username) as [target|];
      [|now split].
    destruct (existsb _ _); simpl; [|now split].
    split; simpl.
    + now apply NoDup_filter.
    + rewrite filter_In. tauto.
  - unfold unblockUser. destruct (findOne username) as [target'|];
      [|discriminate].
    destruct (existsb _ _); simpl; [|discriminate].
    intros _ target [= <-]. rewrite filter_In. intros [_ H].
    rewrite Z.eqb_refl in H. discriminate.
Qed.

Lemma block_list_stays_in_order_witness :
  blockListInOrder (snd (blockUser usersByName bob (ofString "ann"))).
Proof.
  apply (block_list_stays_in_order usersByName bob (ofString "ann")).
  split; simpl; [constructor | tauto].
Defined.

(** X17.  Blocking a user who is not yet blocked and unblocking him again
    both succeed and leave the document of the requesting user exactly as
    it was. *)
Theorem unblock_after_block_restores :
  forall (findOne : jsString -> option User) (user target : User)
         (username : jsString),
    findOne username = Some target ->
    UserModel._id target <> UserModel._id user ->
    ~ In (UserModel._id target) (UserModel.blockedUsers user) ->
    status (fst (blockUser findOne user username)) = 200
    /\ unblockUser findOne (snd (blockUser findOne user username)) username
       = (Success 200 tt None, user).
Proof.
  intros findOne user target username Hfind Hother Hnew.
  assert (Hblock :
    blockUser findOne user username
    = (Success 200 tt None,
       withBlockedUsers
         (UserModel.blockedUsers user ++ [UserModel._id target]) user)).
  { unfold blockUser. rewrite Hfind.
    replace (UserModel._id target =? UserModel._id user) with false
      by (symmetry; now apply Z.eqb_neq).
    replace (existsb _ _) with false; [reflexivity|].
    symmetry. apply not_true_is_false. now rewrite hasReacted_In. }
  rewrite Hblock. split; [reflexivity|]. cbn [snd].
  unfold unblockUser. rewrite Hfind.
  cbn [UserModel.blockedUsers withBlockedUsers].
  replace (existsb (fun id => id =? UserModel._id target)
             (UserModel.blockedUsers user ++ [UserModel._id target]))
    with true.
  - cbn [negb]. cbv iota. rewrite pull_after_push by assumption.
    destruct user. reflexivity.
  - symmetry. apply hasReacted_In. apply in_or_app. right. now left.
Qed.

Lemma unblock_after_block_restores_witness :
  unblockUser usersByName (snd (blockUser usersByName bob (ofString "ann")))
    (ofString "ann")
  = (Success 200 tt None, bob).
Proof.
  apply (unblock_after_block_restores usersByName bob ann (ofString "ann")).
  - reflexivity.
  - simpl. lia.
  - simpl. tauto.
Defined.

Lemma lowerUnit_idempotent (c : N) : lowerUnit (lowerUnit c) = lowerUnit c.
Proof.
  unfold lowerUnit.
  destruct ((65 <=? c) && (c <=? 90))%N eqn:E; [|now rewrite E].
  apply andb_true_iff in E. destruct E as [H1 H2]. apply N.leb_le in H1, H2.
  replace ((65 <=? c + 32) && (c + 32 <=? 90))%N with false; trivial.
  symmetry. apply andb_false_iff. right. apply N.leb_gt. lia.
Qed.

Lemma toLowerCase_idempotent (s : jsString) :
  toLowerCase (toLowerCase s) = toLowerCase s.
Proof.
  unfold toLowerCase. rewrite map_map. apply map_ext.
  apply lowerUnit_idempotent.
Qed.

Lemma startsWith_app (k rest : jsString) : startsWith (k ++ rest) k = true.
Proof.
  induction k as [| c k IH]; simpl.
  - destruct rest; reflexivity.
  - now rewrite N.eqb_refl, IH.
Qed.

Lemma includes_app (before k after : jsString) :
  includes (before ++ k ++ after) k = true.
Proof.
  induction before as [| c before IH]; simpl.
  - pose proof (startsWith_app k after) as Hstart.
    destruct (k ++ after); cbn [includes]; rewrite Hstart; reflexivity.
  - rewrite IH. apply orb_true_r.
Qed.

Lemma mentions_includes (content keyword : jsString) :
  mentions content keyword ->
  includes (toLowerCase content) (toLowerCase keyword) = true.
Proof.
  intros (before & occurrence & after & -> & Hsame).
  unfold toLowerCase in *. rewrite !map_app, Hsame. apply includes_app.
Qed.

Lemma keyword_listed (k : jsString) (l : list jsString) :
  existsb (JS.eqb k) l = true <-> In k l.
Proof.
  rewrite existsb_exists. split.
  - intros (x & Hin & Heq). apply jsString_eqb_eq in Heq. now subst.
  - intros Hin. exists k. split; trivial. now apply jsString_eqb_eq.
Qed.

Lemma addKeywordFilter_success (user user' : User) (keyword : option jsString)
  (resp : Response (list jsString)) :
  addKeywordFilter user keyword = (resp, user') ->
  success resp = true ->
  exists text,
    keyword = Some text
    /\ trim text <> []
    /\ ~ In (toLowerCase (trim text)) (UserModel.keywordFilters user)
    /\ user' = withKeywordFilters
                 (UserModel.keywordFilters user ++ [toLowerCase (trim text)])
                 user.
Proof.
  unfold addKeywordFilter. destruct keyword as [text|]; [|declined].
  destruct (negb (truthy (Some text)) || JS.eqb (trim text) []) eqn:Hblank;
    [declined|].
  destruct (existsb _ _) eqn:Hexists; [declined|].
  intros [= <- <-] _. exists text. split; [reflexivity|].
  split; [|split; [|reflexivity]].
  - intros Hnil. rewrite Hnil in Hblank. simpl in Hblank.
    now rewrite orb_true_r in Hblank.
  - rewrite <- keyword_listed. congruence.
Qed.

(** X18.  After a successful [addKeywordFilter] of a user with content
    filtering on, the filter drops for that user every post whose content
    holds the trimmed keyword, in any letter case.  The property is about a
    keyword and a content of ASCII characters, where [toLowerCase] is the
    function of the language. *)
Theorem added_keyword_hides_mentions :
  forall (user user' : User) (text : jsString)
         (resp : Response (list jsString)),
    isAscii text ->
    addKeywordFilter user (Some text) = (resp, user') ->
    success resp = true ->
    UserModel.contentFiltering
      (UserModel.contentFilters (UserModel.settings user)) = true ->
    forall post,
      isAscii (content post) ->
      mentions (content post) (trim text) ->
      isVisible post (Some user') = false.
Proof.
  intros user user' text resp _ Hadd Hok Hon post _ Hmention.
  destruct (addKeywordFilter_success user user' (Some text) resp Hadd Hok)
    as (text' & [= <-] & _ & _ & ->).
  simpl. unfold keepsPost.
  cbn [UserModel.blockedUsers UserModel.settings UserModel.keywordFilters
       withKeywordFilters].
  rewrite Hon.
  destruct (existsb _ (UserModel.blockedUsers user)); trivial.
  destruct (true && (truthy (contentWarning post) && _)); trivial.
  replace (true
           && ((0 <? Z.of_nat
                       (List.length
                          (map toLowerCase
                             (UserModel.keywordFilters user
                              ++ [toLowerCase (trim text)]))))
               && containsSensitiveContent (content post)
                    (map toLowerCase
                       (UserModel.keywordFilters user
                        ++ [toLowerCase (trim text)]))))
    with true; trivial.
  symmetry. rewrite map_app. cbn [map andb].
  apply andb_true_iff. split.
  - apply Z.ltb_lt. rewrite length_app. simpl. lia.
  - unfold containsSensitiveContent.
    destruct (map toLowerCase (UserModel.keywordFilters user)
              ++ [toLowerCase (toLowerCase (trim text))]) eqn:E.
    + apply app_eq_nil in E. destruct E as [_ E]. discriminate.
    + rewrite <- E. apply existsb_exists.
      exists (toLowerCase (toLowerCase (trim text))). split.
      * apply in_or_app. right. now left.
      * rewrite !toLowerCase_idempotent. now apply mentions_includes.
Qed.

Lemma added_keyword_hides_mentions_witness :
  isVisible spoilerPost
    (Some (snd (addKeywordFilter bob (Some (ofString " Spoiler ")))))
  = false.
Proof.
  apply (added_keyword_hides_mentions bob _ (ofString " Spoiler ")
           (fst (addKeywordFilter bob (Some (ofString " Spoiler "))))).
  - reflexivity.
  - reflexivity.
  - reflexivity.
  - reflexivity.
  - reflexivity.
  - exists (ofString "big "), (ofString "SPOILER"), (ofString " here").
    split; reflexivity.
Defined.







End BlockAndKeywords.

(** ** The listings of one author and of one hashtag *)

Section AuthorAndHashtag.

Lemma filter_both {A : Type} (f g : A -> bool) (l : list A) :
  filter (fun x => f x && g x) l = filter g (filter f l).
Proof.
  induction l as [| x l IH]; simpl; trivial.
  destruct (f x); simpl; [destruct (g x)|]; now rewrite IH.
Qed.

Lemma findPostsOf_findPosts (author : Z) (q : Mongo.PostFilter) (n : Z)
  (Posts : list Post) :
  MongoMore.findPostsOf author q n Posts
  = Mongo.findPosts q n (filter (fun p => userId p =? author) Posts).
Proof.
  unfold MongoMore.findPostsOf, Mongo.findPosts. now rewrite filter_both.
Qed.

Lemma blocked_listed (id : Z) (ids : list Z) :
  existsb (fun i => i =? id) ids = true <-> In id ids.
Proof. apply hasReacted_In. Qed.

Lemma existsb_never {A : Type} (f : A -> bool) (l : list A) :
  (forall x, In x l -> f x = false) -> existsb f l = false.
Proof.
  induction l as [| x l IH]; simpl; intros H; trivial.
  rewrite H by now left. apply IH. intros y Hy. apply H. now right.
Qed.

Lemma filter_none {A : Type} (f : A -> bool) (l : list A) :
  (forall x, In x l -> f x = false) -> filter f l = [].
Proof.
  induction l as [| x l IH]; simpl; intros H; trivial.
  rewrite H by now left. apply IH. intros y Hy. apply H. now right.
Qed.

(** The block of the viewer is seen for the printed id only. *)
Lemma isBlocked_printed (userId : IdParam) (ids : list Z) :
  existsb (fun id => printed userId && (id =? castId userId)) ids = true
  <-> printed userId = true /\ In (castId userId) ids.
Proof.
  destruct (printed userId); cbn [andb].
  - rewrite blocked_listed. tauto.
  - rewrite existsb_never by reflexivity. split; [discriminate | intros [H _]; discriminate].
Qed.

(** X21.  [getUserPosts] refuses with 403 USER_010 exactly when the author
    has blocked the viewer, or the viewer has blocked the author and the id
    of the URL is spelled as [toString] prints it.  For ids spelled that way
    the refusal is symmetric: between two users of the collection, the one
    is refused the posts of the other exactly when the other is refused
    his.  With another spelling of the id the block of the viewer is not
    seen: unless the author has blocked the viewer too, the answer is 200,
    and it holds no post, as the filter drops the posts of an author whom
    the viewer has blocked. *)
Theorem getUserPosts_block_is_symmetric :
  forall (Users : list User) (Posts : list Post) (a b : User)
         (cursor limit cursor' limit' : option Z),
    find (fun x => UserModel._id x =? UserModel._id a) Users = Some a ->
    find (fun x => UserModel._id x =? UserModel._id b) Users = Some b ->
    (forall spelled : bool,
       getUserPosts Users Posts (Some a) (mkIdParam (UserModel._id b) spelled)
         cursor limit
       = Failure 403 "USER_010"
       <-> (spelled = true /\ In (UserModel._id b) (UserModel.blockedUsers a))
           \/ In (UserModel._id a) (UserModel.blockedUsers b))
    /\ (getUserPosts Users Posts (Some a) (mkIdParam (UserModel._id b) true)
          cursor limit
        = Failure 403 "USER_010"
        <-> getUserPosts Users Posts (Some b)
              (mkIdParam (UserModel._id a) true) cursor' limit'
            = Failure 403 "USER_010")
    /\ (In (UserModel._id b) (UserModel.blockedUsers a) ->
        ~ In (UserModel._id a) (UserModel.blockedUsers b) ->
        status (getUserPosts Users Posts (Some a)
                  (mkIdParam (UserModel._id b) false) cursor limit) = 200
        /\ returned (getUserPosts Users Posts (Some a)
                       (mkIdParam (UserModel._id b) false) cursor limit) = []).
Proof.
  assert (Hone : forall Users Posts (a b : User) cursor limit spelled,
    find (fun x => UserModel._id x =? UserModel._id b) Users = Some b ->
    (getUserPosts Users Posts (Some a) (mkIdParam (UserModel._id b) spelled)
       cursor limit
     = Failure 403 "USER_010"
     <-> (spelled = true /\ In (UserModel._id b) (UserModel.blockedUsers a))
         \/ In (UserModel._id a) (UserModel.blockedUsers b))).
  { intros Users Posts a b cursor limit spelled Hb. unfold getUserPosts.
    cbn [castId printed]. rewrite Hb.
    rewrite <- (blocked_listed (UserModel._id a)).
    rewrite <- (isBlocked_printed (mkIdParam (UserModel._id b) spelled)).
    cbn [castId printed]. rewrite <- orb_true_iff.
    destruct (_ || _); split; trivial; discriminate. }
  intros Users Posts a b cursor limit cursor' limit' Ha Hb.
  split; [intros spelled; now apply Hone|]. split.
  - rewrite (Hone Users Posts a b cursor limit true Hb).
    rewrite (Hone Users Posts b a cursor' limit' true Ha). tauto.
  - intros Hblocks Hfree. unfold getUserPosts. cbn [castId printed]. rewrite Hb.
    rewrite (existsb_never (fun id => false && (id =? UserModel._id b)))
      by reflexivity.
    replace (existsb (fun id => id =? UserModel._id a)
               (UserModel.blockedUsers b)) with false
      by (symmetry; apply not_true_is_false; now rewrite blocked_listed).
    cbn [orb status returned]. split; [reflexivity|].
    rewrite findPostsOf_findPosts.
    apply filter_none. intros p Hin.
    assert (Hp : In p (listingPage (parsedLimit limit) None
                         (Mongo.findPosts (Mongo.mkPostFilter cursor None None)
                            (parsedLimit limit + 1)
                            (filter (fun q => userId q =? UserModel._id b)
                               Posts)))) by exact Hin.
    apply listingPage_In in Hp. destruct Hp as [Hp _].
    apply filter_In in Hp. destruct Hp as [_ Hauthor].
    apply Z.eqb_eq in Hauthor. unfold keepsPost.
    replace (existsb (fun id => id =? userId p) (UserModel.blockedUsers a))
      with true; [reflexivity|].
    symmetry. apply blocked_listed. now rewrite Hauthor.
Qed.

Lemma getUserPosts_block_is_symmetric_witness :
  getUserPosts threeUsers [annsPost] (Some bob) (mkIdParam 1 true) None None
  = Failure 403 "USER_010"
  /\ status (getUserPosts threeUsers [newPost 30 2 500 public] (Some ann)
               (mkIdParam 2 false) None None) = 200
  /\ returned (getUserPosts threeUsers [newPost 30 2 500 public] (Some ann)
                 (mkIdParam 2 false) None None) = [].
Proof.
  split.
  - destruct (getUserPosts_block_is_symmetric threeUsers [annsPost] ann bob
                None None None None eq_refl eq_refl) as (Hiff & Hsym & _).
    apply (proj1 Hsym). apply (proj2 (Hiff true)).
    left. split; [reflexivity|]. simpl. now left.
  - destruct (getUserPosts_block_is_symmetric threeUsers
                [newPost 30 2 500 public] ann bob None None None None
                eq_refl eq_refl) as (_ & _ & Hmissed).
    apply Hmissed; simpl; tauto.
Defined.

(** X22.  Every post that [getUserPosts] returns is a public post of the
    requested author that lies below the cursor and that the filter keeps
    for the viewer; for a limit that is not negative there are at most
    fifty of them.  When no user has the requested id the answer is 404
    USER_002. *)
Theorem getUserPosts_returns_the_authors_posts :
  forall (Users : list User) (Posts : list Post) (user : option User)
         (userId' : IdParam) (cursor limit : option Z),
    (forall p,
       In p (returned (getUserPosts Users Posts user userId' cursor limit)) ->
       In p Posts
       /\ userId p = castId userId'
       /\ visibility p = public
       /\ isVisible p user = true
       /\ (forall c, cursor = Some c -> _id p < c))
    /\ (0 <= parsedLimit limit ->
        Z.of_nat
          (List.length
             (returned (getUserPosts Users Posts user userId' cursor limit)))
        <= 50)
    /\ (find (fun a => UserModel._id a =? castId userId') Users = None ->
        getUserPosts Users Posts user userId' cursor limit
        = Failure 404 "USER_002").
Proof.
  intros Users Posts user userId' cursor limit.
  assert (Hpage :
    returned (getUserPosts Users Posts user userId' cursor limit) = []
    \/ returned (getUserPosts Users Posts user userId' cursor limit)
       = listingPage (parsedLimit limit) user
           (Mongo.findPosts (Mongo.mkPostFilter cursor None None)
              (parsedLimit limit + 1)
              (filter (fun p => userId p =? castId userId') Posts))).
  { unfold getUserPosts.
    destruct (find (fun a => UserModel._id a =? castId userId') Users)
      as [author|]; [|now left].
    rewrite findPostsOf_findPosts.
    destruct user as [u|]; [|now right].
    destruct (existsb (fun id => printed userId' && (id =? castId userId'))
                (UserModel.blockedUsers u)
              || existsb (fun id => id =? UserModel._id u)
                   (UserModel.blockedUsers author)); [now left | now right]. }
  split; [|split].
  - intros p Hin. destruct Hpage as [Hpage | Hpage]; rewrite Hpage in Hin;
      [contradiction|].
    pose proof Hin as Hq. apply listingPage_In in Hq.
    destruct Hq as [HPosts Hq]. apply filter_In in HPosts.
    destruct HPosts as [HPosts Hauthor].
    apply matches_inv in Hq. destruct Hq as (Hvis & Hcur & _ & _).
    unfold listingPage in Hin. apply forViewer_In in Hin.
    destruct Hin as [_ Hview].
    split; [exact HPosts|]. split; [now apply Z.eqb_eq|].
    split; [exact Hvis|]. split.
    + destruct Hview as [-> | H]; [|exact H].
      simpl. now apply visibility_eqb_eq.
    + intros c Hc. subst cursor. now apply Hcur.
  - intros Hn. destruct Hpage as [Hpage | Hpage]; rewrite Hpage;
      [simpl; lia|].
    pose proof (parsedLimit_ceiling limit).
    pose proof (listingPage_length (parsedLimit limit) user
                  (Mongo.findPosts (Mongo.mkPostFilter cursor None None)
                     (parsedLimit limit + 1)
                     (filter (fun p => userId p =? castId userId') Posts)) Hn)
      as Hlen.
    assert (Hfetched :
      Z.of_nat
        (List.length
           (Mongo.findPosts (Mongo.mkPostFilter cursor None None)
              (parsedLimit limit + 1)
              (filter (fun p => userId p =? castId userId') Posts)))
      <= parsedLimit limit + 1).
    { unfold Mongo.findPosts. apply limit_length. lia. }
    specialize (Hlen Hfetched). lia.
  - intros Hnone. unfold getUserPosts. now rewrite Hnone.
Qed.


End AuthorAndHashtag.

(** ** Comments and replies *)

Section CommentListings.

Lemma matchesComment_inv (ofPost parent cursor : option Z) (c : Comment) :
  MongoMore.matchesComment ofPost parent cursor c = true ->
  (forall p, ofPost = Some p -> CommentModel.postId c = p)
  /\ CommentModel.parentId c = parent
  /\ CommentModel.visibility c = public
  /\ (forall k, cursor = Some k -> CommentModel._id c < k).
Proof.
  unfold MongoMore.matchesComment. rewrite !andb_true_iff.
  intros [[[Hpost Hparent] Hvis] Hcur]. split; [|split; [|split]].
  - intros p ->. now apply Z.eqb_eq.
  - destruct parent as [a|], (CommentModel.parentId c) as [b|];
      try discriminate; trivial.
    apply Z.eqb_eq in Hparent. now subst.
  - now apply visibility_eqb_eq.
  - intros k ->. now apply Z.ltb_lt.
Qed.

Lemma withoutBlocked_In (user : option User) (comments : list Comment)
  (c : Comment) :
  In c (withoutBlocked user comments)
  <-> In c comments
      /\ (forall u, user = Some u ->
            ~ In (CommentModel.userId c) (UserModel.blockedUsers u)).
Proof.
  unfold withoutBlocked. destruct user as [u|].
  - destruct (0 <? Z.of_nat (List.length (UserModel.blockedUsers u))) eqn:E.
    + rewrite filter_In, negb_true_iff. split.
      * intros [Hc Hnb]. split; trivial. intros u' [= <-] Hin.
        apply blocked_listed in Hin. congruence.
      * intros [Hc Hnb]. split; trivial. apply not_true_is_false.
        rewrite blocked_listed. now apply Hnb.
    + apply Z.ltb_ge in E.
      destruct (UserModel.blockedUsers u) eqn:Hnil; [|simpl in E; lia].
      split; [|tauto]. intros Hc. split; trivial.
      intros u' [= <-]. rewrite Hnil. intros [].
  - split; [intros Hc; split; trivial; discriminate | tauto].
Qed.

Lemma withoutBlocked_Subsequence (user : option User)
  (comments : list Comment) :
  Subsequence (withoutBlocked user comments) comments.
Proof.
  unfold withoutBlocked. destruct user as [u|]; [|apply Subsequence_refl].
  destruct (0 <? _); [apply filter_Subsequence | apply Subsequence_refl].
Qed.

(** X24.  For a post that exists, whatever its visibility, [getComments]
    answers 200, and every comment it returns is a public top-level comment
    of that post below the cursor, not written by a user the viewer
    blocks; for a limit that is not negative there are at most fifty of
    them.  For a post that does not exist it answers 404 POST_001. *)
Theorem getComments_returns_public_comments :
  forall (Posts : list Post) (Comments : list Comment) (user : option User)
         (postId : Z) (cursor limit : option Z),
    (forall post,
       Mongo.findById postId Posts = Some post ->
       status (getComments Posts Comments user postId cursor limit) = 200
       /\ (forall c,
             In c (returnedComments
                     (getComments Posts Comments user postId cursor limit)) ->
             In c Comments
             /\ CommentModel.postId c = postId
             /\ CommentModel.parentId c = None
             /\ CommentModel.visibility c = public
             /\ (forall k, cursor = Some k -> CommentModel._id c < k)
             /\ (forall u, user = Some u ->
                   ~ In (CommentModel.userId c) (UserModel.blockedUsers u)))
       /\ (0 <= parsedLimit limit ->
           Z.of_nat
             (List.length
                (returnedComments
                   (getComments Posts Comments user postId cursor limit)))
           <= 50))
    /\ (Mongo.findById postId Posts = None ->
        getComments Posts Comments user postId cursor limit
        = Failure 404 "POST_001").
Proof.
  intros Posts Comments user postId cursor limit. split.
  - intros post Hfind. unfold getComments. rewrite Hfind.
    set (fetched := Mongo.limit (parsedLimit limit + 1) _).
    set (trimmed := if parsedLimit limit <? Z.of_nat (List.length fetched)
                    then pop fetched else fetched).
    cbn [status returnedComments]. split; [reflexivity|].
    assert (Htrim : Subsequence trimmed fetched).
    { subst trimmed.
      destruct (_ <? _); [apply pop_Subsequence | apply Subsequence_refl]. }
    split.
    + intros c Hc. apply withoutBlocked_In in Hc. destruct Hc as [Hc Hnb].
      apply (Subsequence_In _ _ _ Htrim) in Hc. subst fetched.
      apply (Subsequence_In _ _ _ (limit_Subsequence _ _)) in Hc.
      apply sortDesc_In in Hc. apply filter_In in Hc.
      destruct Hc as [Hc Hq]. apply matchesComment_inv in Hq.
      destruct Hq as (Hp & Hparent & Hvis & Hcur).
      split; [exact Hc|]. split; [now apply Hp|]. now repeat split.
    + intros Hn. pose proof (parsedLimit_ceiling limit) as Hceil.
      assert (Hfetched : Z.of_nat (List.length fetched)
                         <= parsedLimit limit + 1).
      { subst fetched. apply limit_length. lia. }
      pose proof (Subsequence_length _ _
                    (withoutBlocked_Subsequence user trimmed)) as Hsub.
      assert (Htrimmed : Z.of_nat (List.length trimmed) <= parsedLimit limit).
      { subst trimmed.
        destruct (parsedLimit limit <? Z.of_nat (List.length fetched)) eqn:E.
        - apply Z.ltb_lt in E.
          rewrite (pop_overflow (Z.to_nat (parsedLimit limit))) by lia.
          rewrite length_firstn. lia.
        - apply Z.ltb_ge in E. lia. }
      apply Nat2Z.inj_le in Hsub. eapply Z.le_trans; [exact Hsub|].
      eapply Z.le_trans; [exact Htrimmed | exact Hceil].
  - intros Hnone. unfold getComments. now rewrite Hnone.
Qed.

Lemma insertAsc_In {A : Type} (key : A -> Z) (x y : A) (l : list A) :
  In y (MongoMore.insertAsc key x l) <-> y = x \/ In y l.
Proof.
  induction l as [| z l IH]; simpl; [intuition congruence|].
  destruct (key x <=? key z); simpl; [intuition congruence|].
  rewrite IH. intuition congruence.
Qed.

Lemma sortAsc_In {A : Type} (key : A -> Z) (y : A) (l : list A) :
  In y (MongoMore.sortAsc key l) <-> In y l.
Proof.
  induction l as [| x l IH]; simpl; [tauto|].
  rewrite insertAsc_In, IH. intuition congruence.
Qed.

Lemma insertAsc_sorted {A : Type} (key : A -> Z) (x : A) (l : list A) :
  StronglySorted (fun a b => key a <= key b) l ->
  StronglySorted (fun a b => key a <= key b) (MongoMore.insertAsc key x l).
Proof.
  induction 1 as [| z l Hs IH Hall]; simpl.
  - repeat constructor.
  - destruct (key x <=? key z) eqn:E.
    + apply Z.leb_le in E. constructor; [now constructor|].
      constructor; [exact E|].
      rewrite Forall_forall in *. intros y Hy. specialize (Hall y Hy). lia.
    + apply Z.leb_gt in E. constructor; [exact IH|].
      rewrite Forall_forall in *. intros y Hy.
      apply insertAsc_In in Hy. destruct Hy as [-> | Hy]; [lia|].
      now apply Hall.
Qed.

Lemma sortAsc_sorted {A : Type} (key : A -> Z) (l : list A) :
  StronglySorted (fun a b => key a <= key b) (MongoMore.sortAsc key l).
Proof.
  induction l as [| x l IH]; simpl; [constructor|].
  now apply insertAsc_sorted.
Qed.

(** In a sorted list every element of a prefix is related to every element
    of the rest. *)
Lemma sorted_app {A : Type} (R : A -> A -> Prop) (l1 l2 : list A) :
  StronglySorted R (l1 ++ l2) ->
  forall x y, In x l1 -> In y l2 -> R x y.
Proof.
  induction l1 as [| z l1 IH]; simpl; intros Hs x y Hx Hy; [contradiction|].
  apply StronglySorted_inv in Hs. destruct Hs as [Hs Hall].
  destruct Hx as [-> | Hx]; [|now apply IH].
  rewrite Forall_forall in Hall. apply Hall. apply in_or_app. now right.
Qed.

Lemma limit_prefix {A : Type} (n : Z) (l : list A) :
  exists rest, l = Mongo.limit n l ++ rest.
Proof.
  unfold Mongo.limit. destruct (n =? 0).
  - exists []. now rewrite app_nil_r.
  - exists (skipn (Z.to_nat (Z.abs n)) l). now rewrite firstn_skipn.
Qed.

Lemma pop_prefix {A : Type} (l : list A) : exists rest, l = pop l ++ rest.
Proof.
  unfold pop. destruct l as [| x l]; [now exists []|].
  destruct (exists_last (l := x :: l)) as (l' & a & ->); [discriminate|].
  exists [a]. now rewrite removelast_last.
Qed.

(** X25.  [getReplies] lists the oldest replies first and still fetches
    below the cursor.  When ids follow creation times, every reply of the
    page requested with the [nextCursor] of a page was already returned on
    that page: following the cursor never reaches a reply that is newer
    than the last reply of the first page. *)
Theorem getReplies_cursor_goes_backwards :
  forall (Comments : list Comment) (user : option User) (commentId : Z)
         (cursor limit limit' : option Z) (c : Z),
    commentIdsFollowCreation Comments ->
    nextCursorOf (getReplies Comments user commentId cursor limit) = Some c ->
    forall b,
      In b (returnedComments
              (getReplies Comments user commentId (Some c) limit')) ->
      CommentModel._id b < c
      /\ In b (returnedComments
                 (getReplies Comments user commentId cursor limit)).
Proof.
  intros Comments user commentId cursor limit limit' c Hagree Hcursor b Hb.
  unfold getReplies in *.
  destruct (find (fun x => CommentModel._id x =? commentId) Comments);
    [|discriminate].
  cbn [returnedComments nextCursorOf pagination nextCursor] in *.
  set (sorted := MongoMore.sortAsc CommentModel.createdAt
                   (filter (MongoMore.matchesComment None (Some commentId)
                              cursor) Comments)) in *.
  set (fetched := Mongo.limit (parsedLimit limit + 1) sorted) in *.
  set (trimmed := if parsedLimit limit <? Z.of_nat (List.length fetched)
                  then pop fetched else fetched) in *.
  (* the reply [b] of the second page *)
  apply withoutBlocked_In in Hb. destruct Hb as [Hb Hbnb].
  assert (Hb' : In b Comments
                /\ MongoMore.matchesComment None (Some commentId) (Some c) b
                   = true).
  { destruct (parsedLimit limit' <? _).
    - apply (Subsequence_In _ _ _ (pop_Subsequence _)) in Hb.
      apply (Subsequence_In _ _ _ (limit_Subsequence _ _)) in Hb.
      apply sortAsc_In in Hb. now apply filter_In in Hb.
    - apply (Subsequence_In _ _ _ (limit_Subsequence _ _)) in Hb.
      apply sortAsc_In in Hb. now apply filter_In in Hb. }
  clear Hb. destruct Hb' as [HbC Hbq].
  apply matchesComment_inv in Hbq. destruct Hbq as (_ & Hbparent & Hbvis & Hbc).
  specialize (Hbc c eq_refl). split; [exact Hbc|].
  (* the last reply [z] of the first page *)
  destruct (lastItem (withoutBlocked user trimmed)) as [z|] eqn:Hlast;
    [|discriminate].
  injection Hcursor as <-.
  apply lastItem_In in Hlast. apply withoutBlocked_In in Hlast.
  destruct Hlast as [Hz _].
  assert (Hprefix : exists rest, sorted = trimmed ++ rest).
  { destruct (limit_prefix (parsedLimit limit + 1) sorted) as [r1 Hr1].
    fold fetched in Hr1. subst trimmed.
    destruct (parsedLimit limit <? Z.of_nat (List.length fetched)).
    - destruct (pop_prefix fetched) as [r2 Hr2].
      exists (r2 ++ r1). rewrite app_assoc, <- Hr2. exact Hr1.
    - now exists r1. }
  destruct Hprefix as [rest Hrest].
  assert (HzS : In z sorted) by (rewrite Hrest; apply in_or_app; now left).
  pose proof HzS as HzC. apply sortAsc_In in HzC. apply filter_In in HzC.
  destruct HzC as [HzC Hzq]. apply matchesComment_inv in Hzq.
  destruct Hzq as (_ & _ & _ & Hzc).
  assert (HbS : In b sorted).
  { apply sortAsc_In. apply filter_In. split; [exact HbC|].
    unfold MongoMore.matchesComment. rewrite Hbparent, Hbvis, Z.eqb_refl.
    simpl. destruct cursor as [k|]; trivial.
    apply Z.ltb_lt. specialize (Hzc k eq_refl). lia. }
  apply withoutBlocked_In. split; [|exact Hbnb].
  rewrite Hrest in HbS. apply in_app_or in HbS.
  destruct HbS as [HbT | HbR]; [exact HbT|].
  pose proof (sortAsc_sorted CommentModel.createdAt
                (filter (MongoMore.matchesComment None (Some commentId) cursor)
                   Comments)) as Hsorted.
  fold sorted in Hsorted. rewrite Hrest in Hsorted.
  pose proof (sorted_app _ _ _ Hsorted z b Hz HbR) as Hle. cbv beta in Hle.
  apply (Hagree b z HbC HzC) in Hbc. lia.
Qed.

Lemma getReplies_cursor_goes_backwards_witness :
  CommentModel._id (replyTo 101 1100) < 102
  /\ In (replyTo 101 1100)
       (returnedComments (getReplies thread None 100 None (Some 2))).
Proof.
  apply (getReplies_cursor_goes_backwards thread None 100 None (Some 2)
           (Some 2) 102).
  - intros a b Ha Hb. simpl in Ha, Hb.
    repeat match goal with
           | H : _ \/ _ |- _ => destruct H as [<- | H]
           | H : False |- _ => destruct H
           end; simpl; lia.
  - reflexivity.
  - simpl. left. reflexivity.
Defined.

End CommentListings.

(** ** The filter and the viewer *)

Section FilterAndViewer.

(** X26.  Signing in never widens what the filter shows: the posts kept for
    a user are among the posts kept for the anonymous viewer, in the same
    order, and the admin flag of the user makes no difference to the
    filter. *)
Theorem signed_in_view_within_anonymous_view :
  forall (posts : list Post) (u : User),
    Subsequence (filterPostsForUser posts (Some u))
      (filterPostsForUser posts None)
    /\ filterPostsForUser posts (Some u)
       = filterPostsForUser (filterPostsForUser posts None) (Some u)
    /\ filterPostsForUser posts (Some u)
       = filterPostsForUser posts
           (Some (UserModel.mkUser (UserModel._id u)
                    (negb (UserModel.isAdmin u)) (UserModel.blockedUsers u)
                    (UserModel.keywordFilters u) (UserModel.settings u))).
Proof.
  intros posts u.
  assert (Hsame : filterPostsForUser posts (Some u)
                  = filterPostsForUser (filterPostsForUser posts None) (Some u)).
  { simpl. induction posts as [| p posts IH]; simpl; trivial.
    destruct (keepsPost u p) eqn:Hkeep.
    - pose proof (isVisible_public p (Some u) Hkeep) as Hpub.
      rewrite Hpub. simpl. now rewrite Hkeep, IH.
    - destruct (visibility_eqb (visibility p) public); simpl;
        [rewrite Hkeep|]; exact IH. }
  split; [|split; [exact Hsame | reflexivity]].
  rewrite Hsame. simpl. apply filter_Subsequence.
Qed.

End FilterAndViewer.
